(** * Parakeet FastAPI bridge: a shallow embedding of [parakeet_fastapi/server.py]

    The module holds two process-wide variables ([_model], [_device]), a lazy
    loader ([_load_model]), the upload handler ([_transcribe]), the recursive
    extraction of text from a prediction of unknown shape
    ([_coerce_prediction]) and the two routes built by [create_app].

    Python values are modelled by the closed type [value]; the interpreter's
    global variables, the environment, the file system and the trace of calls
    to external collaborators are the fields of [World]; a Python function that
    can raise is a computation in the state-and-exception monad [M]. *)

From Stdlib Require Import ZArith Ascii String List.
From stdpp Require Import gmap strings list.

Local Open Scope string_scope.
Local Open Scope list_scope.

(** ** Python [str] methods used by the module

    A Rocq [string] is read as a Python [str] whose code points are below 256
    (one [ascii] per code point, Latin-1). *)

Module PyStr.

Definition ord (c : ascii) : N := N_of_ascii c.

(** [str.isspace] on one code point below 256: TAB, LF, VT, FF, CR,
    FS, GS, RS, US, SPACE, NEL (0x85) and NBSP (0xa0). *)
Definition isspace (c : ascii) : bool :=
  let n := ord c in
  ((9 <=? n) && (n <=? 13) || (28 <=? n) && (n <=? 32)
   || (n =? 133) || (n =? 160))%N.

(** [s.lstrip()] *)
Fixpoint lstrip (s : string) : string :=
  match s with
  | EmptyString => EmptyString
  | String c rest => if isspace c then lstrip rest else s
  end.

(** [s.rstrip()] *)
Fixpoint rstrip (s : string) : string :=
  match s with
  | EmptyString => EmptyString
  | String c rest =>
      match rstrip rest with
      | EmptyString => if isspace c then EmptyString else String c EmptyString
      | kept => String c kept
      end
  end.

(** [s.strip()] *)
Definition strip (s : string) : string := rstrip (lstrip s).

(** [s.startswith(prefix)] *)
Fixpoint startswith (s prefix : string) : bool :=
  match prefix with
  | EmptyString => true
  | String p prefix' =>
      match s with
      | EmptyString => false
      | String c s' => if Ascii.eqb c p then startswith s' prefix' else false
      end
  end.

(** Truth value of a [str]: every string but the empty one is true. *)
Definition truthy (s : string) : bool :=
  match s with
  | EmptyString => false
  | String _ _ => true
  end.

(** [c in s] for a single character. *)
Fixpoint contains (c : ascii) (s : string) : bool :=
  match s with
  | EmptyString => false
  | String d rest => Ascii.eqb c d || contains c rest
  end.

Definition squote : ascii := ascii_of_nat 39.
Definition dquote : ascii := ascii_of_nat 34.
Definition backslash : ascii := ascii_of_nat 92.

Definition hexdigit (n : N) : ascii :=
  match String.get (N.to_nat n) "0123456789abcdef" with
  | Some d => d
  | None => "0"%char
  end.

(** [str.isprintable] on a code point from 0x7f up (below 256): DEL, the C1
    controls, NBSP and the soft hyphen are not printable. *)
Definition isprintable_high (n : N) : bool :=
  negb ((n <=? 160) || (n =? 173))%N.

(** One character of [repr(s)], for the chosen quote. *)
Definition repr_char (quote c : ascii) : string :=
  let n := ord c in
  if Ascii.eqb c quote || Ascii.eqb c backslash then
    String backslash (String c EmptyString)
  else if (n =? 9)%N then String backslash "t"
  else if (n =? 10)%N then String backslash "n"
  else if (n =? 13)%N then String backslash "r"
  else if (n <? 32)%N || (n =? 127)%N || ((127 <? n)%N && negb (isprintable_high n)) then
    String backslash
      (String "x" (String (hexdigit (n / 16)) (String (hexdigit (n mod 16)) EmptyString)))
  else String c EmptyString.

Fixpoint repr_chars (quote : ascii) (s : string) : string :=
  match s with
  | EmptyString => EmptyString
  | String c rest => repr_char quote c +:+ repr_chars quote rest
  end.

(** [repr(s)]: single quotes, unless the string holds a single quote and no
    double quote. *)
Definition repr (s : string) : string :=
  let quote := if contains squote s && negb (contains dquote s) then dquote else squote in
  String quote (repr_chars quote s +:+ String quote EmptyString).

(** [sep.join(parts)] *)
Fixpoint join (sep : string) (parts : list string) : string :=
  match parts with
  | [] => EmptyString
  | [p] => p
  | p :: rest => p +:+ sep +:+ join sep rest
  end.

End PyStr.

(** ** Prediction values

    What [ASRModel.transcribe] may hand back: a [str], a [list] or a [tuple] of
    values, a [dict] (its items in insertion order, the keys being strings,
    each at most once), or any other object.  Of such an object the module only observes the attribute
    [text] (absent, or some value) and [str(obj)]; [repr(obj)] is what shows
    when the object sits inside a [dict].  [None], numbers and the like are
    objects without a [text] attribute. *)

#[local] Unset Elimination Schemes.
Inductive value : Type :=
| PStr (s : string)
| PList (items : list value)
| PTuple (items : list value)
| PDict (entries : list (string * value))
| PObject (text_attr : option value) (obj_str obj_repr : string).
#[local] Set Elimination Schemes.

(** Induction on values, through the containers. *)
Section value_induction.
Variable P : value -> Prop.
Hypothesis HStr : forall s, P (PStr s).
Hypothesis HList : forall items, Forall P items -> P (PList items).
Hypothesis HTuple : forall items, Forall P items -> P (PTuple items).
Hypothesis HDict : forall entries, Forall (fun kv => P (snd kv)) entries -> P (PDict entries).
Hypothesis HObject :
  forall t s r, match t with Some v => P v | None => True end -> P (PObject t s r).

Fixpoint value_ind (v : value) : P v :=
  match v with
  | PStr s => HStr s
  | PList items =>
      HList items
        ((fix go (l : list value) : Forall P l :=
            match l with
            | [] => List.Forall_nil P
            | x :: l' => @List.Forall_cons _ P x l' (value_ind x) (go l')
            end) items)
  | PTuple items =>
      HTuple items
        ((fix go (l : list value) : Forall P l :=
            match l with
            | [] => List.Forall_nil P
            | x :: l' => @List.Forall_cons _ P x l' (value_ind x) (go l')
            end) items)
  | PDict entries =>
      HDict entries
        ((fix go (l : list (string * value)) : Forall (fun kv => P (snd kv)) l :=
            match l with
            | [] => List.Forall_nil _
            | (k, x) :: l' =>
                @List.Forall_cons _ (fun kv => P (snd kv)) (k, x) l' (value_ind x) (go l')
            end) entries)
  | PObject t s r =>
      HObject t s r
        match t with
        | Some x => value_ind x
        | None => I
        end
  end.
End value_induction.

(** [repr(v)] *)
Fixpoint py_repr (v : value) : string :=
  match v with
  | PStr s => PyStr.repr s
  | PList items => "[" +:+ PyStr.join ", " (map py_repr items) +:+ "]"
  | PTuple items =>
      match items with
      | [item] => "(" +:+ py_repr item +:+ ",)"
      | _ => "(" +:+ PyStr.join ", " (map py_repr items) +:+ ")"
      end
  | PDict entries =>
      "{" +:+ PyStr.join ", "
                (map (fun kv => PyStr.repr (fst kv) +:+ ": " +:+ py_repr (snd kv)) entries)
          +:+ "}"
  | PObject _ _ r => r
  end.

(** [str(v)]: a string is itself, an object answers with its [__str__], the
    containers print as their [repr]. *)
Definition py_str (v : value) : string :=
  match v with
  | PStr s => s
  | PObject _ s _ => s
  | _ => py_repr v
  end.

(** [d.get(key)]: [None] when the key is missing. *)
Fixpoint dict_get (entries : list (string * value)) (key : string) : option value :=
  match entries with
  | [] => None
  | (k, v) :: rest => if String.eqb k key then Some v else dict_get rest key
  end.

(** [getattr(v, "text", None)] *)
Definition getattr_text (v : value) : option value :=
  match v with
  | PObject text_attr _ _ => text_attr
  | _ => None
  end.

(** ** [_coerce_prediction] (server.py, lines 62-84) *)

Definition candidate_keys : list string :=
  ["text"; "transcript"; "transcription"; "result"; "message"; "detail"].

(** The loop of lines 75-78 over the remaining candidate keys: the first value
    that is a [str] with a non-empty [strip()] is returned stripped. *)
Fixpoint probe_keys (entries : list (string * value)) (keys : list string) : option string :=
  match keys with
  | [] => None
  | key :: keys' =>
      match dict_get entries key with
      | Some (PStr value) =>
          if PyStr.truthy (PyStr.strip value) then Some (PyStr.strip value)
          else probe_keys entries keys'
      | _ => probe_keys entries keys'
      end
  end.

(** Lines 80-84, reached by every value that is neither a [str] nor a
    [list]/[tuple], and by a [dict] none of whose candidate keys matched. *)
Definition coerce_fallback (prediction : value) : string :=
  match getattr_text prediction with
  | Some (PStr text_attr) => PyStr.strip text_attr
  | _ => PyStr.strip (py_str prediction)
  end.

(** The loop of lines 68-72, given the coercion of one item. *)
Fixpoint first_text (coerce : value -> string) (items : list value) : string :=
  match items with
  | [] => ""
  | item :: rest =>
      let text := coerce item in
      if PyStr.truthy text then text else first_text coerce rest
  end.

Fixpoint _coerce_prediction (prediction : value) : string :=
  match prediction with
  | PStr s => PyStr.strip s
  | PList items | PTuple items => first_text _coerce_prediction items
  | PDict entries =>
      match probe_keys entries candidate_keys with
      | Some text => text
      | None => coerce_fallback prediction
      end
  | PObject _ _ _ => coerce_fallback prediction
  end.


(** ** [os.path.splitext] (POSIX) *)

Module PyPath.

(** [s.rfind(c)] for a single character: the last index, or -1. *)
Fixpoint rfind_from (c : ascii) (s : string) (i last : Z) : Z :=
  match s with
  | EmptyString => last
  | String d rest => rfind_from c rest (i + 1)%Z (if Ascii.eqb d c then i else last)
  end.

Definition rfind (c : ascii) (s : string) : Z := rfind_from c s 0%Z (-1)%Z.

(** Is some character of [s] at an index in [lo, hi) not a dot?  [i] is the
    index of the head of [s]. *)
Fixpoint non_dot_between (s : string) (i lo hi : Z) : bool :=
  match s with
  | EmptyString => false
  | String d rest =>
      ((lo <=? i)%Z && (i <? hi)%Z && negb (Ascii.eqb d "."%char))
      || non_dot_between rest (i + 1)%Z lo hi
  end.

(** [genericpath._splitext(p, "/", None, ".")]: the extension starts at the
    last dot, when that dot follows the last slash and is not one of the
    leading dots of the file name. *)
Definition splitext (p : string) : string * string :=
  let sepIndex := rfind "/"%char p in
  let dotIndex := rfind "."%char p in
  if (sepIndex <? dotIndex)%Z && non_dot_between p 0%Z (sepIndex + 1)%Z dotIndex then
    (String.substring 0 (Z.to_nat dotIndex) p,
     String.substring (Z.to_nat dotIndex) (String.length p - Z.to_nat dotIndex) p)
  else (p, EmptyString).

End PyPath.

(** ** Exceptions and results *)

Inductive exn : Type :=
| RuntimeError (msg : string)
| HTTPException (status_code : Z) (detail : string)
| AssertionError
| FileNotFoundError (path : string)
| External (name : string).
(** The first four constructors are the module's own raise sites: the two
    [RuntimeError]s of [_load_model], the [HTTPException]s of [_transcribe],
    the [assert] of line 48 and the [FileNotFoundError] of [os.remove].
    [External] stands for any exception raised inside code the module calls
    (NeMo, torch, [tempfile]), [name] being its Python class: that class may
    well be [FileNotFoundError] or [RuntimeError]. *)

(** The Python class of an exception, which is what an [except] clause
    tests. *)
Definition exn_class (e : exn) : string :=
  match e with
  | RuntimeError _ => "RuntimeError"
  | HTTPException _ _ => "HTTPException"
  | AssertionError => "AssertionError"
  | FileNotFoundError _ => "FileNotFoundError"
  | External name => name
  end.

Inductive Result (A : Type) : Type :=
| Return (a : A)
| Raise (e : exn).
Arguments Return {A} a.
Arguments Raise {A} e.

(** ** The collaborators

    What the module calls and does not define: the NeMo model class, and
    [tempfile].  A call that can fail answers with the class of the exception
    it raises. *)

Class Externals : Type := {
  (** instances of [nemo.collections.asr.models.ASRModel] *)
  ASRModel : Type;
  (** [ASRModel.restore_from(restore_path=p, map_location=d)], given the file
      system *)
  restore_from : string -> string -> gmap string (list Byte.byte) -> string + ASRModel;
  (** the model after [model.eval()] *)
  model_eval : ASRModel -> ASRModel;
  (** the exception [model.eval()] raises, if it raises *)
  model_eval_raises : ASRModel -> option string;
  (** [model.to(device)] *)
  model_to : ASRModel -> string -> string + ASRModel;
  (** [model.transcribe(paths)]: the predictions or an exception, and the file
      system it leaves *)
  model_transcribe :
    ASRModel -> list string -> gmap string (list Byte.byte) ->
    (string + list value) * gmap string (list Byte.byte);
  (** the path [tempfile.NamedTemporaryFile(delete=False, suffix=s)] opens *)
  temp_name : string -> gmap string (list Byte.byte) -> string;
  (** the exception [NamedTemporaryFile] raises for a reason of the machine
      (no temporary directory, no permission, no space), if it raises: no
      file is made then *)
  temp_open_raises : string -> gmap string (list Byte.byte) -> option string;
  (** the exception [tmp.write(payload)] or [tmp.flush()] raises on the file
      of that name, if one does, with the bytes that reached the file *)
  temp_write_raises :
    string -> list Byte.byte -> gmap string (list Byte.byte) ->
    option (string * list Byte.byte)
}.

(** Calls to the collaborators and to the file system that the properties
    count, newest first. *)
Inductive event : Type :=
| EvRestoreFrom (restore_path map_location : string)
| EvNamedTemporaryFile (name : string)
| EvRemove (path : string)
| EvTranscribe (paths : list string).

Section Server.

Context {ext : Externals}.

(** The state a request can read or change: the two module globals of lines
    10-11, [os.environ], the entries of the file system with their bytes,
    [torch.cuda.is_available()], and the trace. *)
Record World : Type := mkWorld {
  _model : option ASRModel;
  _device : string;
  environ : gmap string string;
  files : gmap string (list Byte.byte);
  cuda_is_available : bool;
  trace : list event
}.

(** The module right after import (lines 10-11). *)
Definition init_world (env : gmap string string) (fs : gmap string (list Byte.byte))
    (cuda : bool) : World :=
  mkWorld None "cpu" env fs cuda [].

Definition set_model (m : option ASRModel) (w : World) : World :=
  mkWorld m (_device w) (environ w) (files w) (cuda_is_available w) (trace w).
Definition set_device (d : string) (w : World) : World :=
  mkWorld (_model w) d (environ w) (files w) (cuda_is_available w) (trace w).
Definition set_files (fs : gmap string (list Byte.byte)) (w : World) : World :=
  mkWorld (_model w) (_device w) (environ w) fs (cuda_is_available w) (trace w).
Definition log (e : event) (w : World) : World :=
  mkWorld (_model w) (_device w) (environ w) (files w) (cuda_is_available w) (e :: trace w).

(** *** State and exceptions *)

Definition M (A : Type) : Type := World -> Result A * World.

#[local] Instance M_ret : MRet M := fun A a w => (Return a, w).
#[local] Instance M_bind : MBind M := fun A B f c w =>
  match c w with
  | (Return a, w') => f a w'
  | (Raise e, w') => (Raise e, w')
  end.

Definition raise {A : Type} (e : exn) : M A := fun w => (Raise e, w).
Definition get : M World := fun w => (Return w, w).
Definition modify (f : World -> World) : M unit := fun w => (Return tt, f w).

(** An answer of a collaborator, as a result. *)
Definition lift_ext {A : Type} (r : string + A) : M A :=
  match r with
  | inl name => raise (External name)
  | inr a => mret a
  end.

(** [try: body finally: cleanup] *)
Definition try_finally {A : Type} (body : M A) (cleanup : M unit) : M A := fun w =>
  match body w with
  | (r, w') =>
      match cleanup w' with
      | (Return _, w'') => (r, w'')
      | (Raise e, w'') => (Raise e, w'')
      end
  end.

(** [try: body except FileNotFoundError: pass] *)
Definition except_FileNotFoundError_pass (body : M unit) : M unit := fun w =>
  match body w with
  | (Raise e, w') =>
      if String.eqb (exn_class e) "FileNotFoundError" then (Return tt, w')
      else (Raise e, w')
  | other => other
  end.

(** [os.path.exists(p)] *)
Definition os_path_exists (p : string) (w : World) : bool :=
  bool_decide (is_Some (files w !! p)).

(** [os.remove(p)] *)
Definition os_remove (p : string) : M unit := fun w =>
  match files w !! p with
  | Some _ => (Return tt, log (EvRemove p) (set_files (delete p (files w)) w))
  | None => (Raise (FileNotFoundError p), w)
  end.

(** The bytes of a string in UTF-8, the encoding of file names: two for a
    code point from 128 on. *)
Fixpoint utf8_length (s : string) : nat :=
  match s with
  | EmptyString => 0
  | String c rest => (if (PyStr.ord c <? 128)%N then 1 else 2) + utf8_length rest
  end.

(** The longest file name the file system takes, in bytes (Linux). *)
Definition NAME_MAX : nat := 255.

(** Why [tempfile.NamedTemporaryFile(delete=False, suffix=suffix)] raises, if
    it does.  The file is named [tmp], eight characters and the suffix:
    [os.open] refuses a name with a NUL in it ([ValueError]) and one longer
    than [NAME_MAX] bytes ([OSError], file name too long); the machine may
    refuse for reasons of its own. *)
Definition named_temporary_file_error (suffix : string)
    (fs : gmap string (list Byte.byte)) : option string :=
  if PyStr.contains (ascii_of_nat 0) suffix then Some "ValueError"
  else if (NAME_MAX <? 11 + utf8_length suffix)%nat then Some "OSError"
  else temp_open_raises suffix fs.

(** Lines 42-45, which no [try] covers: the file is created under the name
    [tempfile] picks, the payload is written and flushed, the file is closed
    and kept ([delete=False]).  When the creation raises there is no file;
    when the writing raises the file stays, with what was written. *)
Definition write_temp_file (suffix : string) (payload : list Byte.byte) : M string := fun w =>
  match named_temporary_file_error suffix (files w) with
  | Some error => (Raise (External error), w)
  | None =>
      let name := temp_name suffix (files w) in
      match temp_write_raises name payload (files w) with
      | Some (error, written) =>
          (Raise (External error),
           log (EvNamedTemporaryFile name) (set_files (<[name := written]> (files w)) w))
      | None =>
          (Return name,
           log (EvNamedTemporaryFile name) (set_files (<[name := payload]> (files w)) w))
      end
  end.

(** *** [_load_model] (lines 14-30) *)

Definition _load_model : M unit :=
  w ← get;
  match _model w with
  | Some _ => mret tt
  | None =>
      match environ w !! "MODEL_PATH" with
      | None => raise (RuntimeError "MODEL_PATH environment variable is not set.")
      | Some model_path =>
          if negb (PyStr.truthy model_path) then
            raise (RuntimeError "MODEL_PATH environment variable is not set.")
          else if negb (os_path_exists model_path w) then
            raise (RuntimeError ("MODEL_PATH does not exist: " +:+ model_path))
          else
            let device := if cuda_is_available w then "cuda" else "cpu" in
            modify (set_device device);;
            modify (log (EvRestoreFrom model_path device));;
            m ← lift_ext (restore_from model_path device (files w));
            modify (set_model (Some m));;
            lift_ext (match model_eval_raises m with
                      | Some error => inl error
                      | None => inr tt
                      end);;
            modify (set_model (Some (model_eval m)));;
            if String.eqb device "cuda" then
              m' ← lift_ext (model_to (model_eval m) device);
              modify (set_model (Some m'))
            else mret tt
      end
  end.

(** The configuration [_load_model] refuses: the variable is unset, or empty,
    or names a path with no entry in the file system. *)
Definition model_path_unusable (w : World) : Prop :=
  environ w !! "MODEL_PATH" = None
  \/ environ w !! "MODEL_PATH" = Some ""
  \/ exists p, environ w !! "MODEL_PATH" = Some p /\ files w !! p = None.

(** *** [_transcribe] (lines 33-59) *)

(** A starlette [UploadFile]: the declared content type and file name, either
    of which may be [None], and the bytes [await upload.read()] gives. *)
Record UploadFile : Type := mkUpload {
  content_type : option string;
  filename : option string;
  payload_bytes : list Byte.byte
}.

(** [s or default] on a string: the empty string is false. *)
Definition str_or (s default : string) : string :=
  if PyStr.truthy s then s else default.

(** [x or default] on an optional string: [None] is false too. *)
Definition opt_str_or (x : option string) (default : string) : string :=
  match x with
  | Some s => str_or s default
  | None => default
  end.

(** The condition of line 34. *)
Definition rejects_content_type (upload : UploadFile) : bool :=
  match content_type upload with
  | Some ct => PyStr.truthy ct && negb (PyStr.startswith ct "audio")
  | None => false
  end.

(** Line 41. *)
Definition temp_suffix (upload : UploadFile) : string :=
  str_or (snd (PyPath.splitext (opt_str_or (filename upload) "audio.wav"))) ".wav".

(** [model.transcribe(paths)]: the model reads, and may change, the file
    system. *)
Definition call_transcribe (model : ASRModel) (paths : list string) : M (list value) := fun w =>
  let '(answer, fs) := model_transcribe model paths (files w) in
  lift_ext answer (log (EvTranscribe paths) (set_files fs w)).

(** Lines 48-49, the body of the [try]. *)
Definition run_inference (temp_path : string) : M (list value) :=
  w ← get;
  match _model w with
  | None => raise AssertionError
  | Some model => call_transcribe model [temp_path]
  end.

Definition _transcribe (upload : UploadFile) : M string :=
  if rejects_content_type upload then
    raise (HTTPException 400 "Invalid content type. Expected audio/*.")
  else
    let payload := payload_bytes upload in
    match payload with
    | [] => raise (HTTPException 400 "Uploaded file is empty.")
    | _ :: _ =>
        temp_path ← write_temp_file (temp_suffix upload) payload;
        predictions ← try_finally
                        (run_inference temp_path)
                        (except_FileNotFoundError_pass (os_remove temp_path));
        match predictions with
        | [] => raise (HTTPException 500 "ASR model returned no predictions.")
        | first :: _ => mret (_coerce_prediction first)
        end
    end.

(** *** The routes of [create_app] (lines 87-110) *)

(** A [JSONResponse] with its content, a flat object of strings. *)
Record JSONResponse : Type := mkJSON { content : list (string * string) }.

(** [startup_event] *)
Definition startup_event : M unit := _load_model.

(** [GET /healthz] *)
Definition health_check : M JSONResponse :=
  w ← get;
  let status := match _model w with Some _ => "ready" | None => "loading" end in
  mret (mkJSON [("status", status); ("device", _device w)]).

(** [POST /transcribe] *)
Definition transcribe (audio_file : UploadFile) : M JSONResponse :=
  w ← get;
  (match _model w with None => _load_model | Some _ => mret tt end);;
  text ← _transcribe audio_file;
  mret (mkJSON [("text", text)]).

(** The status line FastAPI answers with: 200 for a returned response, the
    code of an [HTTPException], 500 for any other exception that leaves the
    route. *)
Definition http_status {A : Type} (r : Result A) : Z :=
  match r with
  | Return _ => 200
  | Raise (HTTPException status_code _) => status_code
  | Raise _ => 500
  end.

(** *** Reading the trace *)

(** The names given to [NamedTemporaryFile], newest first. *)
Fixpoint temp_files_created (t : list event) : list string :=
  match t with
  | [] => []
  | EvNamedTemporaryFile name :: t' => name :: temp_files_created t'
  | _ :: t' => temp_files_created t'
  end.

(** How many times [ASRModel.restore_from] was called. *)
Fixpoint loads (t : list event) : nat :=
  match t with
  | [] => 0
  | EvRestoreFrom _ _ :: t' => S (loads t')
  | _ :: t' => loads t'
  end.

End Server.

(** ** A test double for the collaborators

    [restore_from] and [to] always succeed, [transcribe] gives a fixed answer
    and, when [unlinks] is set, removes the files it was given; temporary
    files are named [/tmp/tmp0] plus the suffix. *)

Definition stub_externals (answer : string + list value) (unlinks : bool) : Externals := {|
  ASRModel := string;
  restore_from := fun p _ _ => inr p;
  model_eval := fun m => m;
  model_eval_raises := fun _ => None;
  model_to := fun m _ => inr m;
  model_transcribe := fun _ paths fs =>
    (answer, if unlinks then foldr delete fs paths else fs);
  temp_name := fun suffix _ => "/tmp/tmp0" +:+ suffix;
  temp_open_raises := fun _ _ => None;
  temp_write_raises := fun _ _ _ => None
|}.

(** Worlds and uploads the examples run on: a process that holds a model, a
    freshly imported module whose [MODEL_PATH] names an existing file, and one
    with an empty environment. *)

Definition world_ready (answer : string + list value) (unlinks : bool)
  : @World (stub_externals answer unlinks) :=
  @mkWorld (stub_externals answer unlinks)
    (Some "/models/parakeet.nemo" : option string) "cpu" ∅ ∅ false [].

Definition world_configured (answer : string + list value) (unlinks : bool)
  : @World (stub_externals answer unlinks) :=
  init_world {["MODEL_PATH" := "/models/parakeet.nemo"]} {["/models/parakeet.nemo" := []]} true.

Definition world_unconfigured (answer : string + list value) (unlinks : bool)
  : @World (stub_externals answer unlinks) :=
  init_world ∅ ∅ false.

Definition upload_clip (ct : option string) : UploadFile :=
  mkUpload ct (Some "clip.wav") [Byte.x52; Byte.x49; Byte.x46; Byte.x46].

Definition upload_empty : UploadFile := mkUpload (Some "audio/wav") (Some "clip.wav") [].

(** A string with nothing but white space in it (the empty one too): what
    [not s.strip()] tests. *)
Fixpoint blank (s : string) : bool :=
  match s with
  | EmptyString => true
  | String c rest => PyStr.isspace c && blank rest
  end.

(** Does this mapping hold, under [key], a string with content? *)
Definition holds_text (entries : list (string * value)) (key : string) : bool :=
  match dict_get entries key with
  | Some (PStr s) => negb (blank s)
  | _ => false
  end.

(** A second test double: the model restores, and moving it to the GPU
    fails. *)
Definition stub_to_fails : Externals := {|
  ASRModel := string;
  restore_from := fun p _ _ => inr p;
  model_eval := fun m => m;
  model_eval_raises := fun _ => None;
  model_to := fun _ _ => inl "torch.OutOfMemoryError";
  model_transcribe := fun _ _ fs => (inr [], fs);
  temp_name := fun suffix _ => "/tmp/tmp0" +:+ suffix;
  temp_open_raises := fun _ _ => None;
  temp_write_raises := fun _ _ _ => None
|}.

Definition world_gpu : @World stub_to_fails :=
  init_world {["MODEL_PATH" := "/models/parakeet.nemo"]} {["/models/parakeet.nemo" := []]} true.

(** A third: [eval] raises on the restored model. *)
Definition stub_eval_fails : Externals := {|
  ASRModel := string;
  restore_from := fun p _ _ => inr p;
  model_eval := fun m => m;
  model_eval_raises := fun _ => Some "AttributeError";
  model_to := fun m _ => inr m;
  model_transcribe := fun _ _ fs => (inr [], fs);
  temp_name := fun suffix _ => "/tmp/tmp0" +:+ suffix;
  temp_open_raises := fun _ _ => None;
  temp_write_raises := fun _ _ _ => None
|}.

Definition world_eval_fails : @World stub_eval_fails :=
  init_world {["MODEL_PATH" := "/models/parakeet.nemo"]} {["/models/parakeet.nemo" := []]} false.

(** A fourth: the disk is full, [write] raises after the first byte. *)
Definition stub_disk_full : Externals := {|
  ASRModel := string;
  restore_from := fun p _ _ => inr p;
  model_eval := fun m => m;
  model_eval_raises := fun _ => None;
  model_to := fun m _ => inr m;
  model_transcribe := fun _ _ fs => (inr [PStr "never asked"], fs);
  temp_name := fun suffix _ => "/tmp/tmp0" +:+ suffix;
  temp_open_raises := fun _ _ => None;
  temp_write_raises := fun _ payload _ => Some ("OSError", take 1 payload)
|}.

Definition world_disk_full : @World stub_disk_full :=
  @mkWorld stub_disk_full (Some "/models/parakeet.nemo" : option string) "cpu" ∅ ∅ false [].


Section ServerRelations.

Context {ext : Externals}.

(** What a request has no business changing: the two globals, the
    environment, the hardware, and the number of model loads so far. *)
Definition same_globals (w w' : World) : Prop :=
  _model w' = _model w
  /\ _device w' = _device w
  /\ environ w' = environ w
  /\ cuda_is_available w' = cuda_is_available w
  /\ loads (trace w') = loads (trace w).

(** A computation that keeps them, however it ends. *)
Definition keeps_globals {A : Type} (c : M A) : Prop :=
  forall w, same_globals w (snd (c w)).

(** The device [_load_model] selects (line 26). *)
Definition selected_device (w : World) : string :=
  if cuda_is_available w then "cuda" else "cpu".

End ServerRelations.

(** A string made of dots only (the empty one too). *)
Fixpoint all_dots (s : string) : bool :=
  match s with
  | EmptyString => true
  | String c rest => Ascii.eqb c "."%char && all_dots rest
  end.

(** * Properties *)

(** ** Strings *)

Example splitext_wav : PyPath.splitext "clips/take.1.wav" = ("clips/take.1", ".wav").
Proof. reflexivity. Qed.

Example splitext_hidden : PyPath.splitext "dir.d/.bashrc" = ("dir.d/.bashrc", "").
Proof. reflexivity. Qed.

Lemma lstrip_head (s : string) :
  PyStr.lstrip s = "" \/ exists c r, PyStr.lstrip s = String c r /\ PyStr.isspace c = false.
Proof.
  induction s as [|c r IH]; simpl; [now left|].
  destruct (PyStr.isspace c) eqn:Hc; [exact IH|].
  right. now exists c, r.
Qed.

Lemma rstrip_head (c : ascii) (r : string) :
  PyStr.isspace c = false -> exists r', PyStr.rstrip (String c r) = String c r'.
Proof.
  intros Hc. simpl. destruct (PyStr.rstrip r) as [|d k].
  - rewrite Hc. now exists "".
  - now exists (String d k).
Qed.

Lemma rstrip_idempotent (s : string) : PyStr.rstrip (PyStr.rstrip s) = PyStr.rstrip s.
Proof.
  induction s as [|c r IH]; simpl; [reflexivity|].
  destruct (PyStr.rstrip r) as [|d k] eqn:Hr.
  - destruct (PyStr.isspace c) eqn:Hc; simpl; [reflexivity|]. now rewrite Hc.
  - change (PyStr.rstrip (String c (String d k))) with
      (match PyStr.rstrip (String d k) with
       | EmptyString => if PyStr.isspace c then EmptyString else String c EmptyString
       | kept => String c kept
       end).
    now rewrite IH.
Qed.

Lemma strip_idempotent (s : string) : PyStr.strip (PyStr.strip s) = PyStr.strip s.
Proof.
  unfold PyStr.strip.
  destruct (lstrip_head s) as [-> | (c & r & -> & Hc)]; [reflexivity|].
  destruct (rstrip_head c r Hc) as [r' Hr]. rewrite Hr.
  simpl PyStr.lstrip. rewrite Hc, <- Hr. apply rstrip_idempotent.
Qed.

(** A string that starts with a character that is not white space keeps it
    under [strip], so is not stripped to nothing. *)
Lemma strip_head (c : ascii) (r : string) :
  PyStr.isspace c = false -> exists r', PyStr.strip (String c r) = String c r'.
Proof.
  intros Hc. unfold PyStr.strip. simpl PyStr.lstrip. rewrite Hc.
  now apply rstrip_head.
Qed.

(** ** [_coerce_prediction] *)

Example coerce_hello : _coerce_prediction (PStr "hello ") = "hello".
Proof. reflexivity. Qed.

Example coerce_nested_tuple :
  _coerce_prediction (PTuple [PList [PStr "  "; PObject (Some (PStr " ok ")) "<Hypothesis>" "<Hypothesis>"]; PList []])
  = "ok".
Proof. reflexivity. Qed.

Lemma first_text_stripped (coerce : value -> string) (items : list value) :
  Forall (fun v => PyStr.strip (coerce v) = coerce v) items ->
  PyStr.strip (first_text coerce items) = first_text coerce items.
Proof.
  induction 1 as [|v l Hv _ IH]; simpl; [reflexivity|].
  destruct (PyStr.truthy (coerce v)); [exact Hv | exact IH].
Qed.

Lemma probe_keys_stripped (entries : list (string * value)) (keys : list string) (text : string) :
  probe_keys entries keys = Some text -> PyStr.strip text = text.
Proof.
  induction keys as [|key keys IH]; simpl; [discriminate|].
  destruct (dict_get entries key) as [[s| | | |]|]; try exact IH.
  destruct (PyStr.truthy (PyStr.strip s)); [|exact IH].
  intros [= <-]. apply strip_idempotent.
Qed.

Lemma probe_keys_truthy (entries : list (string * value)) (keys : list string) (text : string) :
  probe_keys entries keys = Some text -> PyStr.truthy text = true.
Proof.
  induction keys as [|key keys IH]; simpl; [discriminate|].
  destruct (dict_get entries key) as [[s| | | |]|]; try exact IH.
  destruct (PyStr.truthy (PyStr.strip s)) eqn:Ht; [|exact IH].
  now intros [= <-].
Qed.

Lemma coerce_fallback_stripped (v : value) :
  PyStr.strip (coerce_fallback v) = coerce_fallback v.
Proof.
  unfold coerce_fallback.
  destruct (getattr_text v) as [[s| | | |]|]; apply strip_idempotent.
Qed.

Lemma coerce_dict_unfold (entries : list (string * value)) :
  _coerce_prediction (PDict entries)
  = match probe_keys entries candidate_keys with
    | Some text => text
    | None => coerce_fallback (PDict entries)
    end.
Proof. reflexivity. Qed.

(** C10: whatever the shape of the prediction (string, list or tuple, mapping,
    object with or without a [text] attribute), the text [_coerce_prediction]
    returns has no white space at either end: stripping it again changes
    nothing. *)
Theorem coerce_prediction_stripped (prediction : value) :
  PyStr.strip (_coerce_prediction prediction) = _coerce_prediction prediction.
Proof.
  induction prediction as [s|items IH|items IH|entries _|t s r _] using value_ind.
  - apply strip_idempotent.
  - now apply first_text_stripped.
  - now apply first_text_stripped.
  - rewrite coerce_dict_unfold.
    destruct (probe_keys entries candidate_keys) as [text|] eqn:Hp.
    + now apply probe_keys_stripped in Hp.
    + apply coerce_fallback_stripped.
  - apply coerce_fallback_stripped.
Qed.

(** X7: A mapping never coerces to the empty string: either a candidate key holds
    text, or the mapping prints as [{...}]. *)
Lemma coerce_dict_truthy (entries : list (string * value)) :
  PyStr.truthy (_coerce_prediction (PDict entries)) = true.
Proof.
  rewrite coerce_dict_unfold.
  destruct (probe_keys entries candidate_keys) as [text|] eqn:Hp.
  - now apply probe_keys_truthy in Hp.
  - unfold coerce_fallback. simpl getattr_text. cbv beta iota.
    change (py_str (PDict entries)) with (py_repr (PDict entries)).
    change (py_repr (PDict entries)) with
      (String "{"%char
         (PyStr.join ", "
            (map (fun kv => PyStr.repr (fst kv) +:+ ": " +:+ py_repr (snd kv)) entries)
          +:+ "}")).
    destruct (strip_head "{"%char
                (PyStr.join ", "
                   (map (fun kv => PyStr.repr (fst kv) +:+ ": " +:+ py_repr (snd kv)) entries)
                 +:+ "}") eq_refl) as [r' ->].
    reflexivity.
Qed.

(** In the loop over a sequence, an element is passed over exactly when its
    own text is empty. *)
Lemma first_text_skip (coerce : value -> string) (item : value) (rest : list value) :
  coerce item = "" -> first_text coerce (item :: rest) = first_text coerce rest.
Proof. intros H. simpl. now rewrite H. Qed.

Lemma first_text_take (coerce : value -> string) (item : value) (rest : list value) :
  PyStr.truthy (coerce item) = true -> first_text coerce (item :: rest) = coerce item.
Proof. intros H. simpl. now rewrite H. Qed.

(** C1, as the code has it: on [[{"foo": "x"}, {"text": " hi "}]] the result is
    the printed form of the first mapping, [{'foo': 'x'}]: a mapping without a
    candidate key falls through to [str(prediction)], which is not empty, so
    the loop stops there, whatever follows in the sequence.  The stripped
    ["text"] of the second mapping is the result when the element before it
    coerces to the empty string. *)
Theorem coerce_list_first_mapping_wins :
  _coerce_prediction (PList [PDict [("foo", PStr "x")]; PDict [("text", PStr " hi ")]])
  = "{'foo': 'x'}"
  /\ (forall rest, _coerce_prediction (PList (PDict [("foo", PStr "x")] :: rest)) = "{'foo': 'x'}")
  /\ (forall v, _coerce_prediction v = "" ->
                _coerce_prediction (PList [v; PDict [("text", PStr " hi ")]]) = "hi").
Proof.
  split; [reflexivity|]. split.
  - intros rest. reflexivity.
  - intros v Hv. change (_coerce_prediction (PList ?l)) with (first_text _coerce_prediction l).
    rewrite first_text_skip by exact Hv. reflexivity.
Qed.

(** A sequence whose first element is blank text: the ["text"] of the mapping
    after it is returned. *)
Lemma coerce_list_first_mapping_wins_witness :
  _coerce_prediction (PList [PStr "  "; PDict [("text", PStr " hi ")]]) = "hi".
Proof.
  refine (proj2 (proj2 coerce_list_first_mapping_wins) (PStr "  ") _).
  reflexivity.
Defined.

(** C1 as stated fails: the result on that sequence is not ["hi"]. *)
Lemma coerce_list_not_hi :
  _coerce_prediction (PList [PDict [("foo", PStr "x")]; PDict [("text", PStr " hi ")]]) <> "hi".
Proof. vm_compute. discriminate. Qed.

(** C2, as the code has it: on [{"result": ""}] no candidate key holds a
    string with content, the value falls through to [str(prediction)], and the
    result is the printed mapping [{'result': ''}], stripped. *)
Theorem coerce_empty_result_mapping :
  probe_keys [("result", PStr "")] candidate_keys = None
  /\ _coerce_prediction (PDict [("result", PStr "")]) = PyStr.strip (py_str (PDict [("result", PStr "")]))
  /\ _coerce_prediction (PDict [("result", PStr "")]) = "{'result': ''}".
Proof. repeat split. Qed.

(** C2 as stated fails: the result on that mapping is not the empty string. *)
Lemma coerce_empty_result_not_empty :
  _coerce_prediction (PDict [("result", PStr "")]) <> "".
Proof. vm_compute. discriminate. Qed.

(** ** The loader and the health route *)

Section LoaderProperties.

Context {ext : Externals}.

Lemma load_model_loaded (w : World) (m : ASRModel) :
  _model w = Some m -> _load_model w = (Return tt, w).
Proof. intros H. unfold _load_model, mbind, M_bind, get. now rewrite H. Qed.

(** What [_load_model] does when no model is held, branch by branch. *)
Lemma load_model_unloaded (w : World) :
  _model w = None ->
  _load_model w =
    match environ w !! "MODEL_PATH" with
    | None => (Raise (RuntimeError "MODEL_PATH environment variable is not set."), w)
    | Some model_path =>
        if negb (PyStr.truthy model_path) then
          (Raise (RuntimeError "MODEL_PATH environment variable is not set."), w)
        else if negb (os_path_exists model_path w) then
          (Raise (RuntimeError ("MODEL_PATH does not exist: " +:+ model_path)), w)
        else
          let device := if cuda_is_available w then "cuda" else "cpu" in
          let w1 := log (EvRestoreFrom model_path device) (set_device device w) in
          match restore_from model_path device (files w) with
          | inl name => (Raise (External name), w1)
          | inr m =>
              match model_eval_raises m with
              | Some name => (Raise (External name), set_model (Some m) w1)
              | None =>
                  if cuda_is_available w then
                    match model_to (model_eval m) "cuda" with
                    | inl name => (Raise (External name), set_model (Some (model_eval m)) w1)
                    | inr m' => (Return tt, set_model (Some m') w1)
                    end
                  else (Return tt, set_model (Some (model_eval m)) w1)
              end
          end
    end.
Proof.
  intros H. unfold _load_model, mbind, M_bind, get. rewrite H.
  destruct (environ w !! "MODEL_PATH") as [model_path|]; [|reflexivity].
  destruct (PyStr.truthy model_path); [|reflexivity]. cbn [negb].
  destruct (os_path_exists model_path w); [|reflexivity]. cbn [negb].
  unfold modify, lift_ext, raise, mret, M_ret.
  destruct (cuda_is_available w) eqn:Hc; cbn zeta;
    destruct (restore_from model_path _ (files w)) as [name|m]; try reflexivity;
    destruct (model_eval_raises m) as [name|]; try reflexivity.
  cbn. destruct (model_to (model_eval m) "cuda"); reflexivity.
Qed.

(** A successful load leaves a model in place and has called
    [ASRModel.restore_from] once. *)
Lemma load_model_success (w w1 : World) :
  _model w = None -> _load_model w = (Return tt, w1) ->
  is_Some (_model w1) /\ loads (trace w1) = S (loads (trace w)).
Proof.
  intros H. rewrite (load_model_unloaded w H).
  destruct (environ w !! "MODEL_PATH") as [model_path|]; [|discriminate].
  destruct (negb (PyStr.truthy model_path)); [discriminate|].
  destruct (negb (os_path_exists model_path w)); [discriminate|].
  cbn zeta. destruct (restore_from _ _ _) as [name|m]; [discriminate|].
  destruct (model_eval_raises m) as [name|]; [discriminate|].
  destruct (cuda_is_available w).
  - destruct (model_to _ _) as [name|m']; [discriminate|].
    intros [= <-]. split; [now eexists | reflexivity].
  - intros [= <-]. split; [now eexists | reflexivity].
Qed.

(** C6: [_load_model] is idempotent.  When a call returns normally, a model is
    held afterwards and a second call returns at once and changes nothing;
    over the two calls [ASRModel.restore_from] ran exactly once if no model
    was held at first, and not at all if one was (the first call then left
    the state as it was). *)
Theorem load_model_idempotent (w w1 : World) :
  _load_model w = (Return tt, w1) ->
  is_Some (_model w1)
  /\ _load_model w1 = (Return tt, w1)
  /\ loads (trace (snd (_load_model w1)))
     = match _model w with Some _ => loads (trace w) | None => S (loads (trace w)) end
  /\ (is_Some (_model w) -> w1 = w).
Proof.
  intros Hrun.
  assert (is_Some (_model w1) /\
          loads (trace w1) = match _model w with
                             | Some _ => loads (trace w)
                             | None => S (loads (trace w))
                             end /\
          (is_Some (_model w) -> w1 = w)) as (Hm & Hn & Hsame).
  { destruct (_model w) as [m|] eqn:Hw.
    - rewrite (load_model_loaded w m Hw) in Hrun. injection Hrun as <-.
      rewrite Hw. repeat split; eauto.
    - destruct (load_model_success w w1 Hw Hrun) as [? ?].
      repeat split; [assumption..|]. intros [? [=]]. }
  destruct Hm as [m1 Hm1].
  rewrite (load_model_loaded w1 m1 Hm1). cbn [snd].
  repeat split; eauto.
Qed.

(** C8: [GET /healthz] answers ["ready"] exactly when a model is held and
    ["loading"] otherwise, with the current [_device]; a freshly imported
    module holds no model and its device is ["cpu"]. *)
Theorem health_check_status (w : World) :
  (exists status,
      health_check w = (Return (mkJSON [("status", status); ("device", _device w)]), w)
      /\ (status = "ready" <-> is_Some (_model w))
      /\ (status = "loading" <-> _model w = None))
  /\ (forall env fs cuda,
         health_check (init_world env fs cuda)
         = (Return (mkJSON [("status", "loading"); ("device", "cpu")]), init_world env fs cuda)).
Proof.
  split; [|reflexivity].
  unfold health_check, mbind, M_bind, get, mret, M_ret.
  destruct (_model w) as [m|].
  - exists "ready". repeat split; eauto; discriminate.
  - exists "loading". repeat split; eauto; try discriminate. intros [? [=]].
Qed.

End LoaderProperties.

(** ** The upload handler *)

Section TranscribeProperties.

Context {ext : Externals}.

(** The clean-up of lines 51-54 always completes, and the path is gone after
    it, whether [os.remove] found the file or not. *)
Lemma cleanup_removes (p : string) (w : World) :
  exists w',
    except_FileNotFoundError_pass (os_remove p) w = (Return tt, w')
    /\ files w' !! p = None
    /\ temp_files_created (trace w') = temp_files_created (trace w).
Proof.
  unfold except_FileNotFoundError_pass, os_remove.
  destruct (files w !! p) as [bytes|] eqn:Hp.
  - eexists. split; [reflexivity|]. split; [|reflexivity].
    cbn. apply lookup_delete_eq.
  - exists w. now repeat split.
Qed.

Lemma try_finally_cleanup {A : Type} (body : M A) (p : string) (w w1 : World) (r : Result A) :
  body w = (r, w1) ->
  exists w2,
    try_finally body (except_FileNotFoundError_pass (os_remove p)) w = (r, w2)
    /\ files w2 !! p = None
    /\ temp_files_created (trace w2) = temp_files_created (trace w1).
Proof.
  intros Hbody. destruct (cleanup_removes p w1) as (w2 & Hc & Hgone & Htrace).
  exists w2. unfold try_finally. rewrite Hbody, Hc. now repeat split.
Qed.

(** The body of the [try], by cases on the model and on its answer. *)
Lemma run_inference_spec (p : string) (w : World) :
  exists w1,
    run_inference p w
    = (match _model w with
       | None => Raise AssertionError
       | Some model =>
           match fst (model_transcribe model [p] (files w)) with
           | inl name => Raise (External name)
           | inr predictions => Return predictions
           end
       end, w1)
    /\ temp_files_created (trace w1) = temp_files_created (trace w).
Proof.
  unfold run_inference, mbind, M_bind, get.
  destruct (_model w) as [model|].
  - unfold call_transcribe.
    destruct (model_transcribe model [p] (files w)) as [[name|predictions] fs];
      eexists; split; reflexivity.
  - exists w. split; reflexivity.
Qed.

(** Lines 42-45 when they complete. *)
Lemma write_temp_file_returns (suffix : string) (payload : list Byte.byte) (w : World)
    (name : string) :
  fst (write_temp_file suffix payload w) = Return name ->
  write_temp_file suffix payload w
  = (Return (temp_name suffix (files w)),
     log (EvNamedTemporaryFile (temp_name suffix (files w)))
       (set_files (<[temp_name suffix (files w) := payload]> (files w)) w)).
Proof.
  unfold write_temp_file.
  destruct (named_temporary_file_error suffix (files w)); [discriminate|].
  destruct (temp_write_raises _ payload (files w)) as [[error written]|]; [discriminate|].
  reflexivity.
Qed.

(** Lines 42-45 when they raise: the exception leaves [_transcribe] as it
    is, since no [try] is open yet. *)
Lemma transcribe_temp_file_raises (upload : UploadFile) (w : World) (e : exn) :
  rejects_content_type upload = false ->
  payload_bytes upload <> [] ->
  fst (write_temp_file (temp_suffix upload) (payload_bytes upload) w) = Raise e ->
  _transcribe upload w
  = (Raise e, snd (write_temp_file (temp_suffix upload) (payload_bytes upload) w)).
Proof.
  intros Hct Hpayload Hraise. unfold _transcribe. rewrite Hct.
  destruct (payload_bytes upload) as [|b bytes] eqn:Hbytes; [congruence|].
  unfold mbind, M_bind at 1.
  destruct (write_temp_file (temp_suffix upload) (b :: bytes) w) as [[name|e'] w1];
    cbn [fst snd] in *; congruence.
Qed.

(** An upload that passes both checks and whose temporary file is written:
    one temporary file is made, the model is asked, the file is removed, and
    lines 56-59 decide the result. *)
Lemma transcribe_valid_spec (upload : UploadFile) (w : World) :
  rejects_content_type upload = false ->
  payload_bytes upload <> [] ->
  fst (write_temp_file (temp_suffix upload) (payload_bytes upload) w)
  = Return (temp_name (temp_suffix upload) (files w)) ->
  exists w',
    _transcribe upload w
    = (match _model w with
       | None => Raise AssertionError
       | Some model =>
           match fst (model_transcribe model
                        [temp_name (temp_suffix upload) (files w)]
                        (<[temp_name (temp_suffix upload) (files w) := payload_bytes upload]>
                           (files w))) with
           | inl name => Raise (External name)
           | inr [] => Raise (HTTPException 500 "ASR model returned no predictions.")
           | inr (first :: _) => Return (_coerce_prediction first)
           end
       end, w')
    /\ files w' !! temp_name (temp_suffix upload) (files w) = None
    /\ temp_files_created (trace w')
       = temp_name (temp_suffix upload) (files w) :: temp_files_created (trace w).
Proof.
  intros Hct Hpayload Hwritten. apply write_temp_file_returns in Hwritten.
  unfold _transcribe. rewrite Hct.
  destruct (payload_bytes upload) as [|b bytes] eqn:Hbytes; [congruence|].
  set (p := temp_name (temp_suffix upload) (files w)) in *.
  unfold mbind, M_bind at 1. rewrite Hwritten.
  set (w1 := log (EvNamedTemporaryFile p) (set_files (<[p:=b :: bytes]> (files w)) w)).
  destruct (run_inference_spec p w1) as (w2 & Hrun & Ht2).
  destruct (try_finally_cleanup (run_inference p) p w1 w2 _ Hrun) as (w3 & Htf & Hgone & Ht3).
  exists w3. split; [|split; [exact Hgone | now rewrite Ht3, Ht2]].
  unfold M_bind. rewrite Htf. change (_model w1) with (_model w).
  change (files w1) with (<[p:=b :: bytes]> (files w)).
  destruct (_model w) as [model|]; [|reflexivity].
  destruct (fst (model_transcribe model [p] (<[p:=b :: bytes]> (files w))))
    as [name|[|first rest]]; reflexivity.
Qed.

(** With a model held, the route is the handler with its text wrapped. *)
Lemma transcribe_route_loaded (upload : UploadFile) (w : World) :
  is_Some (_model w) ->
  transcribe upload w
  = match _transcribe upload w with
    | (Return text, w') => (Return (mkJSON [("text", text)]), w')
    | (Raise e, w') => (Raise e, w')
    end.
Proof.
  intros [m Hm]. unfold transcribe, mbind, M_bind, get. rewrite Hm.
  unfold mret, M_ret. now destruct (_transcribe upload w) as [[text|e] w'].
Qed.

(** C3, as the code has it: an upload whose declared content type is a
    non-empty string that does not start with ["audio"] is refused with
    [HTTPException(400)] and the state is left as it was: no temporary file
    is created, nothing is logged; with a model held, [POST /transcribe]
    answers the same.  (An empty content type is treated like a missing one
    by the test of line 34.) *)
Theorem transcribe_rejects_non_audio (upload : UploadFile) (w : World) (ct : string) :
  content_type upload = Some ct ->
  ct <> "" ->
  PyStr.startswith ct "audio" = false ->
  _transcribe upload w
  = (Raise (HTTPException 400 "Invalid content type. Expected audio/*."), w)
  /\ http_status (fst (_transcribe upload w)) = 400%Z
  /\ temp_files_created (trace (snd (_transcribe upload w))) = temp_files_created (trace w)
  /\ files (snd (_transcribe upload w)) = files w
  /\ (is_Some (_model w) ->
      transcribe upload w
      = (Raise (HTTPException 400 "Invalid content type. Expected audio/*."), w)).
Proof.
  intros Hct Hne Hprefix.
  assert (rejects_content_type upload = true) as Hrej.
  { unfold rejects_content_type. rewrite Hct, Hprefix. now destruct ct. }
  assert (_transcribe upload w
          = (Raise (HTTPException 400 "Invalid content type. Expected audio/*."), w)) as Hrun.
  { unfold _transcribe. now rewrite Hrej. }
  repeat split; try (now rewrite Hrun).
  intros Hm. now rewrite (transcribe_route_loaded upload w Hm), Hrun.
Qed.

(** C4: an upload whose payload is empty is refused with [HTTPException(400)],
    by the content-type test if that one fires first and by the test of line
    38 otherwise; the state is left as it was, and with a model held
    [POST /transcribe] answers 400 too. *)
Theorem transcribe_rejects_empty_payload (upload : UploadFile) (w : World) :
  payload_bytes upload = [] ->
  _transcribe upload w
  = (Raise (HTTPException 400
              (if rejects_content_type upload
               then "Invalid content type. Expected audio/*."
               else "Uploaded file is empty.")), w)
  /\ http_status (fst (_transcribe upload w)) = 400%Z
  /\ (is_Some (_model w) -> http_status (fst (transcribe upload w)) = 400%Z).
Proof.
  intros Hempty.
  assert (_transcribe upload w
          = (Raise (HTTPException 400
                      (if rejects_content_type upload
                       then "Invalid content type. Expected audio/*."
                       else "Uploaded file is empty.")), w)) as Hrun.
  { unfold _transcribe. rewrite Hempty. now destruct (rejects_content_type upload). }
  repeat split; try (now rewrite Hrun).
  intros Hm. now rewrite (transcribe_route_loaded upload w Hm), Hrun.
Qed.



(** C7: with no model held, [_load_model] raises one of its two
    [RuntimeError]s exactly when [MODEL_PATH] is unset or empty or names a path
    that does not exist.  It then leaves the state as it was, so no model is
    held, [GET /healthz] still answers ["loading"], and [POST /transcribe]
    fails with the same error, a status 500, for any upload. *)
Theorem load_model_configuration_error (w : World) :
  _model w = None ->
  ((exists msg, fst (_load_model w) = Raise (RuntimeError msg)) <-> model_path_unusable w)
  /\ (model_path_unusable w ->
      exists msg,
        _load_model w = (Raise (RuntimeError msg), w)
        /\ fst (health_check w)
           = Return (mkJSON [("status", "loading"); ("device", _device w)])
        /\ forall upload,
             transcribe upload w = (Raise (RuntimeError msg), w)
             /\ http_status (fst (transcribe upload w)) = 500%Z).
Proof.
  intros Hnone.
  assert (model_path_unusable w -> exists msg, _load_model w = (Raise (RuntimeError msg), w))
    as Hfail.
  { rewrite (load_model_unloaded w Hnone). unfold model_path_unusable, os_path_exists.
    intros [-> | [-> | (p & -> & Hp)]]; eauto.
    destruct (PyStr.truthy p); cbn [negb]; eauto.
    rewrite Hp. rewrite bool_decide_eq_false_2 by (intros [? [=]]). cbn [negb]. eauto. }
  split; [split|].
  - intros [msg Hmsg]. rewrite (load_model_unloaded w Hnone) in Hmsg.
    unfold model_path_unusable.
    destruct (environ w !! "MODEL_PATH") as [model_path|]; [|now left].
    right. destruct model_path as [|c rest]; [now left|]. right.
    exists (String c rest). split; [reflexivity|].
    cbn [PyStr.truthy negb] in Hmsg. unfold os_path_exists in Hmsg.
    destruct (files w !! String c rest) as [bytes|] eqn:Hp; [|reflexivity].
    exfalso. rewrite bool_decide_eq_true_2 in Hmsg by eauto. cbn [negb] in Hmsg.
    cbn zeta in Hmsg. destruct (restore_from _ _ _) as [name|m]; [discriminate|].
    destruct (model_eval_raises m) as [name|]; [discriminate|].
    destruct (cuda_is_available w); [|discriminate].
    destruct (model_to _ _); discriminate.
  - intros Hbad. destruct (Hfail Hbad) as [msg Hmsg]. rewrite Hmsg. eauto.
  - intros Hbad. destruct (Hfail Hbad) as [msg Hmsg]. exists msg.
    split; [exact Hmsg|]. split.
    + unfold health_check, mbind, M_bind, get. now rewrite Hnone.
    + intros upload.
      assert (transcribe upload w = (Raise (RuntimeError msg), w)) as ->.
      { unfold transcribe, mbind, M_bind, get. rewrite Hnone. now rewrite Hmsg. }
      now split.
Qed.

End TranscribeProperties.

(** ** The properties at work on concrete requests *)

(** C3 as stated fails for a content type that is present and empty: it does
    not start with ["audio"], yet line 34 lets the upload through, a temporary
    file is created and the text is returned. *)
Lemma transcribe_empty_content_type_accepted :
  content_type (upload_clip (Some "")) = Some ""
  /\ PyStr.startswith "" "audio" = false
  /\ fst (_transcribe (upload_clip (Some "")) (world_ready (inr [PStr " hi "]) false))
     = Return "hi"
  /\ temp_files_created
       (trace (snd (_transcribe (upload_clip (Some "")) (world_ready (inr [PStr " hi "]) false))))
     = ["/tmp/tmp0.wav"].
Proof. repeat split. Qed.

(** A [text/plain] upload is refused before anything is written. *)
Lemma transcribe_rejects_non_audio_witness :
  _transcribe (upload_clip (Some "text/plain")) (world_ready (inr [PStr " hi "]) false)
  = (Raise (HTTPException 400 "Invalid content type. Expected audio/*."),
     world_ready (inr [PStr " hi "]) false).
Proof.
  refine (proj1 (transcribe_rejects_non_audio
                   (upload_clip (Some "text/plain")) (world_ready (inr [PStr " hi "]) false)
                   "text/plain" _ _ _)).
  - reflexivity.
  - discriminate.
  - reflexivity.
Defined.

(** A 0-byte [audio/wav] upload is refused with status 400. *)
Lemma transcribe_rejects_empty_payload_witness :
  http_status (fst (_transcribe upload_empty (world_ready (inr [PStr " hi "]) false))) = 400%Z.
Proof.
  refine (proj1 (proj2 (transcribe_rejects_empty_payload
                          upload_empty (world_ready (inr [PStr " hi "]) false) _))).
  reflexivity.
Defined.



(** The inference raising leaves no file behind either. *)
Example transcribe_inference_raises :
  _transcribe (upload_clip None) (world_ready (inl "torch.OutOfMemoryError") false)
  = (Raise (External "torch.OutOfMemoryError"),
     log (EvRemove "/tmp/tmp0.wav")
       (log (EvTranscribe ["/tmp/tmp0.wav"])
          (log (EvNamedTemporaryFile "/tmp/tmp0.wav")
             (world_ready (inl "torch.OutOfMemoryError") false)))).
Proof. reflexivity. Qed.

(** Two loads in a row on a configured machine: one call to
    [ASRModel.restore_from]. *)
Lemma load_model_idempotent_witness :
  loads (trace (snd (_load_model (snd (_load_model (world_configured (inr []) false)))))) = 1.
Proof.
  refine (proj1 (proj2 (proj2 (load_model_idempotent
                                 (world_configured (inr []) false)
                                 (snd (_load_model (world_configured (inr []) false))) _)))).
  reflexivity.
Defined.

(** With an empty environment the load fails and [POST /transcribe] answers
    500, also for an upload that would have been refused with 400. *)
Lemma load_model_configuration_error_witness :
  model_path_unusable (world_unconfigured (inr []) false)
  /\ exists msg,
      _load_model (world_unconfigured (inr []) false)
      = (Raise (RuntimeError msg), world_unconfigured (inr []) false)
      /\ http_status
           (fst (transcribe (upload_clip (Some "text/plain")) (world_unconfigured (inr []) false)))
         = 500%Z.
Proof.
  assert (model_path_unusable (world_unconfigured (inr []) false)) as Hbad by (left; reflexivity).
  split; [exact Hbad|].
  destruct (proj2 (load_model_configuration_error (world_unconfigured (inr []) false) eq_refl) Hbad)
    as (msg & Hload & _ & Hroute).
  exists msg. split; [exact Hload|].
  exact (proj2 (Hroute (upload_clip (Some "text/plain")))).
Defined.


(** * Further properties of [_coerce_prediction] *)

Lemma lstrip_blank (s : string) : PyStr.lstrip s = "" <-> blank s = true.
Proof.
  induction s as [|c r IH]; simpl; [tauto|].
  destruct (PyStr.isspace c); simpl; [exact IH|]. split; discriminate.
Qed.

Lemma strip_blank (s : string) : PyStr.strip s = "" <-> blank s = true.
Proof.
  rewrite <- lstrip_blank. unfold PyStr.strip.
  destruct (lstrip_head s) as [-> | (c & r & -> & Hc)]; [tauto|].
  destruct (rstrip_head c r Hc) as [r' ->]. split; discriminate.
Qed.

Lemma truthy_false (s : string) : PyStr.truthy s = false <-> s = "".
Proof. destruct s; simpl; split; congruence. Qed.

Lemma truthy_strip (s : string) : PyStr.truthy (PyStr.strip s) = negb (blank s).
Proof.
  destruct (blank s) eqn:Hb.
  - apply strip_blank in Hb. now rewrite Hb.
  - destruct (PyStr.strip s) eqn:Hs; [|reflexivity].
    apply strip_blank in Hs. congruence.
Qed.

(** X1: A string prediction gives the empty text exactly when it is empty or all
    white space (lines 64-65). *)
Theorem coerce_str_empty_iff (s : string) :
  _coerce_prediction (PStr s) = "" <-> blank s = true.
Proof. apply strip_blank. Qed.

Lemma first_text_app (coerce : value -> string) (a b : list value) :
  first_text coerce (a ++ b)
  = if PyStr.truthy (first_text coerce a) then first_text coerce a else first_text coerce b.
Proof.
  induction a as [|v a IH]; simpl; [reflexivity|].
  destruct (PyStr.truthy (coerce v)) eqn:Hv; [now rewrite Hv | exact IH].
Qed.

Lemma first_text_empty_iff (coerce : value -> string) (items : list value) :
  first_text coerce items = "" <-> Forall (fun v => coerce v = "") items.
Proof.
  induction items as [|v l IH]; simpl.
  - split; [constructor | reflexivity].
  - destruct (PyStr.truthy (coerce v)) eqn:Hv.
    + split.
      * intros H. rewrite H in Hv. discriminate.
      * intros H. inversion H as [|? ? H0 _]; subst. exact H0.
    + apply truthy_false in Hv. rewrite IH. split.
      * intros H. now constructor.
      * intros H. now inversion H.
Qed.

(** X2: A list or tuple gives the empty text exactly when every element does
    (lines 67-72): this is the only way a sequence is passed over. *)
Theorem coerce_sequence_empty_iff (items : list value) :
  (_coerce_prediction (PList items) = ""
   <-> Forall (fun v => _coerce_prediction v = "") items)
  /\ (_coerce_prediction (PTuple items) = ""
      <-> Forall (fun v => _coerce_prediction v = "") items).
Proof. split; apply first_text_empty_iff. Qed.

(** X3: the text of a sequence is the text of its first element that has one:
    the elements before it are passed over, those after it are not looked at
    (lines 68-71). *)
Theorem coerce_sequence_first_nonempty (skipped rest : list value) (v : value) :
  Forall (fun u => _coerce_prediction u = "") skipped ->
  _coerce_prediction v <> "" ->
  _coerce_prediction (PList (skipped ++ v :: rest)) = _coerce_prediction v
  /\ _coerce_prediction (PTuple (skipped ++ v :: rest)) = _coerce_prediction v.
Proof.
  intros Hskip Hv.
  assert (first_text _coerce_prediction (skipped ++ v :: rest) = _coerce_prediction v) as H.
  { rewrite first_text_app. apply first_text_empty_iff in Hskip. rewrite Hskip. simpl.
    destruct (PyStr.truthy (_coerce_prediction v)) eqn:Ht; [reflexivity|].
    now apply truthy_false in Ht. }
  split; exact H.
Qed.

Lemma coerce_sequence_first_nonempty_witness :
  _coerce_prediction (PList [PStr " "; PList []; PStr " second "; PStr "third"]) = "second".
Proof.
  refine (proj1 (coerce_sequence_first_nonempty [PStr " "; PList []] [PStr "third"]
                   (PStr " second ") _ _)).
  - repeat constructor.
  - discriminate.
Defined.

(** X4: nesting does not matter: a sequence inside a sequence can be spliced into
    it, list or tuple alike, without changing the text (the recursion of line
    69 and the loop of lines 68-72 agree). *)
Theorem coerce_sequence_flatten (inner rest : list value) :
  _coerce_prediction (PList (PList inner :: rest)) = _coerce_prediction (PList (inner ++ rest))
  /\ _coerce_prediction (PList (PTuple inner :: rest)) = _coerce_prediction (PList (inner ++ rest))
  /\ _coerce_prediction (PTuple (PList inner :: rest)) = _coerce_prediction (PTuple (inner ++ rest)).
Proof.
  assert (forall x, _coerce_prediction x = first_text _coerce_prediction inner ->
                    first_text _coerce_prediction (x :: rest)
                    = first_text _coerce_prediction (inner ++ rest)) as H.
  { intros x Hx. rewrite first_text_app. simpl. now rewrite Hx. }
  repeat split; apply H; reflexivity.
Qed.

Lemma append_cons (c : ascii) (x y : string) : String c x +:+ y = String c (x +:+ y).
Proof. reflexivity. Qed.

(** Text that ends in a character that is not white space loses nothing on
    the right. *)
Lemma rstrip_append_nonspace (x : string) (c : ascii) :
  PyStr.isspace c = false -> PyStr.rstrip (x +:+ String c "") = x +:+ String c "".
Proof.
  intros Hc. induction x as [|d x IH].
  - change ("" +:+ String c "") with (String c ""). simpl. now rewrite Hc.
  - rewrite append_cons. simpl PyStr.rstrip. rewrite IH.
    destruct x; reflexivity.
Qed.

Lemma strip_printed_mapping (entries : list (string * value)) :
  PyStr.strip (py_repr (PDict entries)) = py_repr (PDict entries).
Proof.
  change (py_repr (PDict entries)) with
    (String "{"%char
       (PyStr.join ", "
          (map (fun kv => PyStr.repr (fst kv) +:+ ": " +:+ py_repr (snd kv)) entries))
     +:+ String "}"%char "").
  set (body := String "{"%char _).
  unfold PyStr.strip. replace (PyStr.lstrip (body +:+ String "}"%char "")) with
    (body +:+ String "}"%char "") by reflexivity.
  now apply rstrip_append_nonspace.
Qed.

Lemma probe_keys_app (entries : list (string * value)) (a b : list string) :
  probe_keys entries (a ++ b)
  = match probe_keys entries a with
    | Some text => Some text
    | None => probe_keys entries b
    end.
Proof.
  induction a as [|key a IH]; simpl; [reflexivity|].
  destruct (dict_get entries key) as [[s| | | |]|]; try exact IH.
  destruct (PyStr.truthy (PyStr.strip s)); [reflexivity | exact IH].
Qed.

Lemma probe_keys_step (entries : list (string * value)) (key : string) (keys : list string) :
  probe_keys entries (key :: keys)
  = if holds_text entries key
    then match dict_get entries key with
         | Some (PStr s) => Some (PyStr.strip s)
         | _ => None
         end
    else probe_keys entries keys.
Proof.
  unfold holds_text. simpl.
  destruct (dict_get entries key) as [[s| | | |]|]; try reflexivity.
  now rewrite truthy_strip.
Qed.

Lemma probe_keys_none (entries : list (string * value)) (keys : list string) :
  probe_keys entries keys = None <-> Forall (fun k => holds_text entries k = false) keys.
Proof.
  induction keys as [|key keys IH].
  - split; [constructor | reflexivity].
  - rewrite probe_keys_step. destruct (holds_text entries key) eqn:Hk.
    + split.
      * unfold holds_text in Hk.
        destruct (dict_get entries key) as [[s| | | |]|]; discriminate.
      * intros H. inversion H; congruence.
    + rewrite IH. split; [now constructor | now inversion 1].
Qed.

(** X5: the candidate keys are tried in their fixed order (line 75): the text of a
    mapping is the stripped string under the first candidate key that holds a
    string with content, whatever the later keys hold and in whatever order
    the mapping lists its items.  Keys holding blank strings or values that
    are not strings are passed over. *)
Theorem coerce_dict_candidate_priority
    (entries : list (string * value)) (before after : list string) (key s : string) :
  candidate_keys = before ++ key :: after ->
  Forall (fun k => holds_text entries k = false) before ->
  dict_get entries key = Some (PStr s) ->
  blank s = false ->
  _coerce_prediction (PDict entries) = PyStr.strip s.
Proof.
  intros Hkeys Hbefore Hget Hs.
  rewrite coerce_dict_unfold, Hkeys, probe_keys_app.
  apply probe_keys_none in Hbefore. rewrite Hbefore, probe_keys_step.
  unfold holds_text. now rewrite Hget, Hs.
Qed.

Lemma coerce_dict_candidate_priority_witness :
  _coerce_prediction
    (PDict [("detail", PStr " d "); ("result", PStr "  ");
            ("message", PStr " m "); ("text", PList [PStr "x"])])
  = "m".
Proof.
  refine (coerce_dict_candidate_priority
            [("detail", PStr " d "); ("result", PStr "  ");
             ("message", PStr " m "); ("text", PList [PStr "x"])]
            ["text"; "transcript"; "transcription"; "result"] ["detail"]
            "message" " m " _ _ _ _).
  - reflexivity.
  - repeat constructor.
  - reflexivity.
  - reflexivity.
Defined.

(** X6: A mapping none of whose candidate keys holds a string with content is
    not read any further: values under other keys, and lists or mappings
    under candidate keys, are not searched.  Its text is the whole printed
    mapping, braces included (lines 80-84). *)
Theorem coerce_dict_fallback_repr (entries : list (string * value)) :
  Forall (fun k => holds_text entries k = false) candidate_keys ->
  _coerce_prediction (PDict entries) = py_repr (PDict entries).
Proof.
  intros Hnone. apply probe_keys_none in Hnone.
  rewrite coerce_dict_unfold, Hnone. unfold coerce_fallback. simpl getattr_text.
  cbv beta iota. change (py_str (PDict entries)) with (py_repr (PDict entries)).
  apply strip_printed_mapping.
Qed.

Lemma coerce_dict_fallback_repr_witness :
  _coerce_prediction (PDict [("text", PList [PStr "hello"]); ("words", PStr "hello")])
  = "{'text': ['hello'], 'words': 'hello'}".
Proof.
  refine (coerce_dict_fallback_repr
            [("text", PList [PStr "hello"]); ("words", PStr "hello")] _).
  repeat constructor.
Defined.

(** * Further properties of the handler and the routes *)

Section RequestProperties.

Context {ext : Externals}.

#[local] Existing Instance M_ret.
#[local] Existing Instance M_bind.

Lemma same_globals_refl (w : World) : same_globals w w.
Proof. now repeat split. Qed.

Lemma same_globals_trans (w1 w2 w3 : World) :
  same_globals w1 w2 -> same_globals w2 w3 -> same_globals w1 w3.
Proof.
  intros (a1 & b1 & c1 & d1 & e1) (a2 & b2 & c2 & d2 & e2).
  repeat split; etransitivity; eassumption.
Qed.

Lemma keeps_ret {A : Type} (a : A) : keeps_globals (mret a).
Proof. intros w. apply same_globals_refl. Qed.

Lemma keeps_raise {A : Type} (e : exn) : keeps_globals (raise (A := A) e).
Proof. intros w. apply same_globals_refl. Qed.

Lemma keeps_bind {A B : Type} (c : M A) (k : A -> M B) :
  keeps_globals c -> (forall a, keeps_globals (k a)) -> keeps_globals (c ≫= k).
Proof.
  intros Hc Hk w. unfold mbind, M_bind. specialize (Hc w).
  destruct (c w) as [[a|e] w1]; cbn [snd] in *; [|exact Hc].
  eapply same_globals_trans; [exact Hc | apply Hk].
Qed.

Lemma keeps_try_finally {A : Type} (body : M A) (cleanup : M unit) :
  keeps_globals body -> keeps_globals cleanup -> keeps_globals (try_finally body cleanup).
Proof.
  intros Hb Hc w. unfold try_finally. specialize (Hb w).
  destruct (body w) as [r w1]. specialize (Hc w1).
  destruct (cleanup w1) as [[[]|e] w2]; cbn [snd] in *;
    eapply same_globals_trans; eassumption.
Qed.

Lemma keeps_cleanup (p : string) : keeps_globals (except_FileNotFoundError_pass (os_remove p)).
Proof.
  intros w. unfold except_FileNotFoundError_pass, os_remove.
  destruct (files w !! p); now repeat split.
Qed.

Lemma keeps_write_temp_file (suffix : string) (payload : list Byte.byte) :
  keeps_globals (write_temp_file suffix payload).
Proof.
  intros w. unfold write_temp_file.
  destruct (named_temporary_file_error suffix (files w)); [now repeat split|].
  destruct (temp_write_raises _ payload (files w)) as [[error written]|]; now repeat split.
Qed.

Lemma keeps_run_inference (p : string) : keeps_globals (run_inference p).
Proof.
  intros w. unfold run_inference, mbind, M_bind, get.
  destruct (_model w) as [model|]; [|now repeat split].
  unfold call_transcribe.
  destruct (model_transcribe model [p] (files w)) as [[name|predictions] fs];
    now repeat split.
Qed.

Lemma keeps_transcribe (upload : UploadFile) : keeps_globals (_transcribe upload).
Proof.
  unfold _transcribe.
  destruct (rejects_content_type upload); [apply keeps_raise|].
  destruct (payload_bytes upload) as [|b bytes]; [apply keeps_raise|].
  apply keeps_bind; [apply keeps_write_temp_file|]. intros p.
  apply keeps_bind.
  - apply keeps_try_finally; [apply keeps_run_inference | apply keeps_cleanup].
  - intros [|first rest]; [apply keeps_raise | apply keeps_ret].
Qed.

(** X10: A request never replaces, unloads or reloads a model that is held, and
    never touches [_device]: [_transcribe] assigns no global, and the route
    calls [_load_model] only when [_model] is [None] (lines 105-106). *)
Theorem request_keeps_model (upload : UploadFile) (w : World) :
  same_globals w (snd (_transcribe upload w))
  /\ (is_Some (_model w) -> same_globals w (snd (transcribe upload w)))
  /\ same_globals w (snd (health_check w)).
Proof.
  split; [apply keeps_transcribe|]. split.
  - intros Hm. rewrite (transcribe_route_loaded upload w Hm).
    pose proof (keeps_transcribe upload w) as H.
    now destruct (_transcribe upload w) as [[text|e] w'].
  - unfold health_check, mbind, M_bind, get. apply same_globals_refl.
Qed.




Lemma write_temp_file_cases (suffix : string) (payload : list Byte.byte) (w : World) :
  fst (write_temp_file suffix payload w) = Return (temp_name suffix (files w))
  \/ exists error, fst (write_temp_file suffix payload w) = Raise (External error).
Proof.
  unfold write_temp_file.
  destruct (named_temporary_file_error suffix (files w)) as [error|]; [right; eauto|].
  destruct (temp_write_raises _ payload (files w)) as [[error written]|]; [right; eauto|].
  now left.
Qed.

(** The result of the handler for a valid upload, by cases. *)
Lemma transcribe_valid_result (upload : UploadFile) (w : World) :
  rejects_content_type upload = false ->
  payload_bytes upload <> [] ->
  fst (_transcribe upload w) = Raise AssertionError /\ _model w = None
  \/ (exists error, fst (_transcribe upload w) = Raise (External error))
  \/ fst (_transcribe upload w)
     = Raise (HTTPException 500 "ASR model returned no predictions.")
  \/ exists text, fst (_transcribe upload w) = Return text.
Proof.
  intros Hct Hpayload.
  destruct (write_temp_file_cases (temp_suffix upload) (payload_bytes upload) w)
    as [Hwritten | [error Hraise]].
  - destruct (transcribe_valid_spec upload w Hct Hpayload Hwritten) as (w' & -> & _).
    cbn [fst]. destruct (_model w) as [model|]; [|now left].
    destruct (fst (model_transcribe _ _ _)) as [name|[|first rest]]; eauto 6.
  - rewrite (transcribe_temp_file_raises upload w (External error) Hct Hpayload Hraise).
    right. left. now exists error.
Qed.

(** X13: [_transcribe] answers 400 for an upload that fails one of its two checks
    and for no other: whatever the model does with a valid upload, the status
    is 200 or 500 (lines 34-39 hold the only [HTTPException(400)]). *)
Theorem transcribe_status_400_iff (upload : UploadFile) (w : World) :
  http_status (fst (_transcribe upload w)) = 400%Z
  <-> rejects_content_type upload = true \/ payload_bytes upload = [].
Proof.
  split.
  - intros Hstatus.
    destruct (rejects_content_type upload) eqn:Hct; [now left|]. right.
    destruct (payload_bytes upload) as [|b bytes] eqn:Hbytes; [reflexivity|]. exfalso.
    assert (payload_bytes upload <> []) as Hne by congruence.
    destruct (transcribe_valid_result upload w Hct Hne)
      as [[Hr _] | [[error Hr] | [Hr | [text Hr]]]];
      rewrite Hr in Hstatus; discriminate.
  - intros [Hct | Hempty]; unfold _transcribe.
    + now rewrite Hct.
    + rewrite Hempty. now destruct (rejects_content_type upload).
Qed.

Lemma load_model_raise_kind (w w' : World) (e : exn) :
  _load_model w = (Raise e, w') ->
  (exists msg, e = RuntimeError msg) \/ (exists name, e = External name).
Proof.
  destruct (_model w) as [m|] eqn:Hm.
  - now rewrite (load_model_loaded w m Hm).
  - rewrite (load_model_unloaded w Hm).
    destruct (environ w !! "MODEL_PATH") as [path|]; [|intros [= <- _]; eauto].
    destruct (negb (PyStr.truthy path)); [intros [= <- _]; eauto|].
    destruct (negb (os_path_exists path w)); [intros [= <- _]; eauto|].
    cbn zeta. destruct (restore_from _ _ _) as [name|m]; [intros [= <- _]; eauto|].
    destruct (model_eval_raises m) as [name|]; [intros [= <- _]; eauto|].
    destruct (cuda_is_available w); [|discriminate].
    destruct (model_to _ _) as [name|m']; [intros [= <- _]; eauto | discriminate].
Qed.

Lemma transcribe_route_unloaded (upload : UploadFile) (w : World) :
  _model w = None ->
  transcribe upload w
  = match _load_model w with
    | (Return _, w1) =>
        match _transcribe upload w1 with
        | (Return text, w') => (Return (mkJSON [("text", text)]), w')
        | (Raise e, w') => (Raise e, w')
        end
    | (Raise e, w1) => (Raise e, w1)
    end.
Proof.
  intros Hm. unfold transcribe, mbind, M_bind, get. rewrite Hm.
  destruct (_load_model w) as [[[]|e] w1]; [|reflexivity].
  unfold mret, M_ret. now destruct (_transcribe upload w1) as [[text|e] w'].
Qed.

(** X14: [POST /transcribe] answers 200, 400 or 500 and nothing else, for any
    upload in any state, and the [assert] of line 48 never fails on a request:
    by the time [_transcribe] runs, the route has a model (lines 105-106). *)
Theorem transcribe_route_status (upload : UploadFile) (w : World) :
  (http_status (fst (transcribe upload w)) = 200%Z
   \/ http_status (fst (transcribe upload w)) = 400%Z
   \/ http_status (fst (transcribe upload w)) = 500%Z)
  /\ fst (transcribe upload w) <> Raise AssertionError.
Proof.
  assert (forall w1, is_Some (_model w1) ->
            let r := fst (match _transcribe upload w1 with
                          | (Return text, w') => (Return (mkJSON [("text", text)]), w')
                          | (Raise e, w') => (Raise e, w')
                          end) in
            (http_status r = 200%Z \/ http_status r = 400%Z \/ http_status r = 500%Z)
            /\ r <> Raise AssertionError)
    as Hloaded.
  { intros w1 [model Hmodel]. cbn zeta.
    destruct (rejects_content_type upload) eqn:Hct.
    { unfold _transcribe. rewrite Hct. cbn. split; auto; discriminate. }
    destruct (payload_bytes upload) as [|b bytes] eqn:Hbytes.
    { unfold _transcribe. rewrite Hct, Hbytes. cbn. split; auto; discriminate. }
    assert (payload_bytes upload <> []) as Hne by congruence.
    destruct (transcribe_valid_result upload w1 Hct Hne)
      as [[_ Hnone] | [[error Hr] | [Hr | [text Hr]]]]; [congruence|..];
      destruct (_transcribe upload w1) as [r w'];
      cbn [fst] in Hr; subst r; cbn; split; auto; discriminate. }
  destruct (_model w) as [model|] eqn:Hm.
  - rewrite (transcribe_route_loaded upload w) by eauto. apply Hloaded. eauto.
  - rewrite (transcribe_route_unloaded upload w Hm).
    destruct (_load_model w) as [[[]|e] w1] eqn:Hload.
    + apply Hloaded. now apply (load_model_success w w1 Hm Hload).
    + destruct (load_model_raise_kind w w1 e Hload) as [[msg ->] | [name ->]];
        cbn; split; auto; discriminate.
Qed.

End RequestProperties.

(** * Further properties of the loader *)

Section LoaderOutcomes.

Context {ext : Externals}.

(** X15: what a successful first load stores (lines 20-30): the model restored from
    the path [MODEL_PATH] names, which is not empty and exists, with the
    selected device as [map_location], put in evaluation mode and, on a GPU
    machine, moved to ["cuda"]; [_device] is the selected device and
    [GET /healthz] then answers ["ready"] with it.  The load reads the
    environment and the file system and changes neither. *)
Theorem load_model_stores (w w1 : World) :
  _model w = None ->
  _load_model w = (Return tt, w1) ->
  exists path m,
    environ w !! "MODEL_PATH" = Some path
    /\ path <> ""
    /\ is_Some (files w !! path)
    /\ restore_from path (selected_device w) (files w) = inr m
    /\ (if cuda_is_available w
        then exists m', model_to (model_eval m) "cuda" = inr m' /\ _model w1 = Some m'
        else _model w1 = Some (model_eval m))
    /\ _device w1 = selected_device w
    /\ environ w1 = environ w
    /\ files w1 = files w
    /\ trace w1 = EvRestoreFrom path (selected_device w) :: trace w
    /\ fst (health_check w1)
       = Return (mkJSON [("status", "ready"); ("device", selected_device w)]).
Proof.
  intros Hm. rewrite (load_model_unloaded w Hm). unfold selected_device, os_path_exists.
  destruct (environ w !! "MODEL_PATH") as [path|]; [|discriminate].
  destruct path as [|c rest]; [discriminate|]. cbn [PyStr.truthy negb].
  destruct (bool_decide (is_Some (files w !! String c rest))) eqn:Hex; [|discriminate].
  apply bool_decide_eq_true in Hex. cbn [negb]. cbn zeta.
  destruct (cuda_is_available w) eqn:Hcuda;
    destruct (restore_from _ _ (files w)) as [name|m] eqn:Hrestore; try discriminate;
    destruct (model_eval_raises m) as [name|]; try discriminate.
  - destruct (model_to (model_eval m) "cuda") as [name|m'] eqn:Hto; [discriminate|].
    intros [= <-]. exists (String c rest), m.
    repeat split; try assumption; try discriminate. now exists m'.
  - intros [= <-]. exists (String c rest), m.
    repeat split; try assumption; discriminate.
Qed.

(** X16: how a first load can fail, and what it leaves (lines 20-30).  A
    configuration error changes nothing.  Any other failure comes from NeMo
    or torch, after [_device] was switched to the selected device and
    [restore_from] was called once; the environment and the files are as
    before.  No model is held exactly when it is [restore_from] that raised:
    when [eval] raises, or [to] on a GPU machine, the model assigned on line
    27 stays in [_model]. *)
Theorem load_model_failure_state (w w1 : World) (e : exn) :
  _model w = None ->
  _load_model w = (Raise e, w1) ->
  ((exists msg, e = RuntimeError msg) /\ w1 = w)
  \/ ((exists name, e = External name)
      /\ _device w1 = selected_device w
      /\ loads (trace w1) = S (loads (trace w))
      /\ environ w1 = environ w
      /\ files w1 = files w
      /\ exists path,
          environ w !! "MODEL_PATH" = Some path
          /\ match restore_from path (selected_device w) (files w) with
             | inl name => e = External name /\ _model w1 = None
             | inr m =>
                 match model_eval_raises m with
                 | Some name => e = External name /\ _model w1 = Some m
                 | None =>
                     exists name,
                       e = External name
                       /\ cuda_is_available w = true
                       /\ model_to (model_eval m) "cuda" = inl name
                       /\ _model w1 = Some (model_eval m)
                 end
             end).
Proof.
  intros Hm. rewrite (load_model_unloaded w Hm). unfold selected_device.
  destruct (environ w !! "MODEL_PATH") as [path|]; [|intros [= <- <-]; left; eauto].
  destruct (negb (PyStr.truthy path)); [intros [= <- <-]; left; eauto|].
  destruct (negb (os_path_exists path w)); [intros [= <- <-]; left; eauto|].
  cbn zeta.
  destruct (restore_from path _ (files w)) as [name|m] eqn:Hrestore.
  { intros [= <- <-]. right. repeat split; eauto.
    exists path. split; [reflexivity|]. now rewrite Hrestore. }
  destruct (model_eval_raises m) as [name|] eqn:Heval.
  { intros [= <- <-]. right. repeat split; eauto.
    exists path. split; [reflexivity|]. now rewrite Hrestore, Heval. }
  destruct (cuda_is_available w) eqn:Hcuda; [|discriminate].
  destruct (model_to (model_eval m) "cuda") as [name|m'] eqn:Hto; [|discriminate].
  intros [= <- <-]. right. repeat split; eauto.
  exists path. split; [reflexivity|]. rewrite Hrestore, Heval. now exists name.
Qed.

(** X17: A load that fails while moving the model to the GPU leaves the model in
    place all the same (line 27 has assigned [_model], and line 28 has
    returned, before line 30 raises): the call raises, yet [GET /healthz]
    answers ["ready"] afterwards and the next [_load_model] returns at once
    without trying again. *)
Theorem load_model_to_failure_keeps_model (w : World) (path name : string) (m : ASRModel) :
  _model w = None ->
  environ w !! "MODEL_PATH" = Some path ->
  path <> "" ->
  is_Some (files w !! path) ->
  cuda_is_available w = true ->
  restore_from path "cuda" (files w) = inr m ->
  model_eval_raises m = None ->
  model_to (model_eval m) "cuda" = inl name ->
  fst (_load_model w) = Raise (External name)
  /\ _model (snd (_load_model w)) = Some (model_eval m)
  /\ fst (health_check (snd (_load_model w)))
     = Return (mkJSON [("status", "ready"); ("device", "cuda")])
  /\ _load_model (snd (_load_model w)) = (Return tt, snd (_load_model w)).
Proof.
  intros Hm Henv Hpath Hex Hcuda Hrestore Heval Hto.
  assert (_load_model w
          = (Raise (External name),
             set_model (Some (model_eval m))
               (log (EvRestoreFrom path "cuda") (set_device "cuda" w)))) as Hrun.
  { rewrite (load_model_unloaded w Hm), Henv. unfold os_path_exists.
    destruct path as [|c rest]; [congruence|]. cbn [PyStr.truthy negb].
    rewrite bool_decide_eq_true_2 by exact Hex. cbn [negb]. cbn zeta.
    now rewrite Hcuda, Hrestore, Heval, Hto. }
  rewrite Hrun. cbn [fst snd]. split; [reflexivity|]. split; [reflexivity|].
  split; [reflexivity|]. now apply load_model_loaded with (m := model_eval m).
Qed.

(** X18: when the load on a first request fails, the request ends there with the
    loader's exception, a status 500: the upload is not examined (a bad
    content type or an empty payload gets no 400), no temporary file is
    created and no file is touched (lines 105-107). *)
Theorem lazy_load_failure_aborts (upload : UploadFile) (w w1 : World) (e : exn) :
  _model w = None ->
  _load_model w = (Raise e, w1) ->
  transcribe upload w = (Raise e, w1)
  /\ http_status (fst (transcribe upload w)) = 500%Z
  /\ files w1 = files w
  /\ temp_files_created (trace w1) = temp_files_created (trace w).
Proof.
  intros Hm Hload.
  assert (transcribe upload w = (Raise e, w1)) as Hrun.
  { now rewrite (transcribe_route_unloaded upload w Hm), Hload. }
  rewrite Hrun. cbn [fst]. split; [reflexivity|]. split.
  { destruct (load_model_raise_kind w w1 e Hload) as [[msg ->] | [name ->]]; reflexivity. }
  revert Hload. rewrite (load_model_unloaded w Hm).
  destruct (environ w !! "MODEL_PATH") as [path|]; [|now intros [= _ <-]].
  destruct (negb (PyStr.truthy path)); [now intros [= _ <-]|].
  destruct (negb (os_path_exists path w)); [now intros [= _ <-]|].
  cbn zeta. destruct (restore_from _ _ (files w)) as [name|m]; [now intros [= _ <-]|].
  destruct (model_eval_raises m) as [name|]; [now intros [= _ <-]|].
  destruct (cuda_is_available w); [|discriminate].
  destruct (model_to (model_eval m) "cuda") as [name|m']; [now intros [= _ <-] | discriminate].
Qed.

End LoaderOutcomes.

(** * Further properties of the upload checks *)

Lemma startswith_iff (s prefix : string) :
  PyStr.startswith s prefix = true <-> exists rest, s = prefix +:+ rest.
Proof.
  revert s. induction prefix as [|p prefix IH]; intros s.
  - split; [intros _; now exists s | now destruct s].
  - destruct s as [|c s]; simpl; [split; [discriminate | intros [rest [=]]]|].
    destruct (Ascii.eqb c p) eqn:Hcp.
    + apply Ascii.eqb_eq in Hcp as ->. rewrite IH. split.
      * intros [rest ->]. now exists rest.
      * intros [rest [= ->]]. now exists rest.
    + split; [discriminate|]. intros [rest [= -> _]].
      rewrite Ascii.eqb_refl in Hcp. discriminate.
Qed.

(** X8: which content types line 34 lets through: none declared, an empty one,
    and every one that starts with the five characters [audio], in lower
    case and with or without a slash after them.  Every other content type is
    refused. *)
Theorem accepted_content_types (upload : UploadFile) :
  rejects_content_type upload = false
  <-> content_type upload = None
      \/ content_type upload = Some ""
      \/ exists rest, content_type upload = Some ("audio" +:+ rest).
Proof.
  unfold rejects_content_type. destruct (content_type upload) as [ct|].
  - destruct ct as [|c ct].
    + split; [now right; left | reflexivity].
    + cbn [PyStr.truthy andb]. rewrite negb_false_iff, startswith_iff. split.
      * intros [rest ->]. right. right. now exists rest.
      * intros [[=] | [[=] | [rest Heq]]]. exists rest. congruence.
  - split; [now left | reflexivity].
Qed.

Example content_type_examples :
  rejects_content_type (upload_clip (Some "audiobook")) = false
  /\ rejects_content_type (upload_clip (Some "Audio/wav")) = true
  /\ rejects_content_type (upload_clip (Some "application/ogg")) = true.
Proof. repeat split. Qed.

Lemma rfind_from_spec (c : ascii) (s : string) (i last : Z) :
  PyPath.rfind_from c s i last = last
  \/ (i <= PyPath.rfind_from c s i last)%Z
     /\ String.get (Z.to_nat (PyPath.rfind_from c s i last - i)) s = Some c.
Proof.
  revert i last. induction s as [|d s IH]; intros i last; simpl; [now left|].
  destruct (IH (i + 1)%Z (if Ascii.eqb d c then i else last)) as [Hlast | [Hle Hget]].
  - rewrite Hlast. destruct (Ascii.eqb d c) eqn:Hdc; [|now left].
    right. apply Ascii.eqb_eq in Hdc as ->. split; [lia|].
    now replace (i - i)%Z with 0%Z by lia.
  - right. split; [lia|].
    set (r := PyPath.rfind_from c s (i + 1) _) in *.
    replace (Z.to_nat (r - i)) with (S (Z.to_nat (r - (i + 1)))) by lia.
    exact Hget.
Qed.

Lemma substring_from (s : string) (n : nat) (c : ascii) :
  String.get n s = Some c ->
  exists rest, String.substring n (String.length s - n) s = String c rest.
Proof.
  revert n. induction s as [|d s IH]; intros n; simpl; [discriminate|].
  destruct n as [|n]; simpl.
  - intros [= ->]. eauto.
  - apply IH.
Qed.

Lemma substring_whole (s : string) : String.substring 0 (String.length s) s = s.
Proof. induction s as [|d s IH]; simpl; [reflexivity | now rewrite IH]. Qed.

Lemma substring_split (s : string) (n : nat) :
  String.substring 0 n s +:+ String.substring n (String.length s - n) s = s.
Proof.
  revert n. induction s as [|d s IH]; intros n.
  - now destruct n.
  - destruct n as [|n].
    + change (String.substring 0 0 (String d s)) with "".
      change ("" +:+ ?x) with x. rewrite Nat.sub_0_r. apply substring_whole.
    + simpl. rewrite append_cons. f_equal. apply IH.
Qed.

Lemma splitext_join (p : string) :
  fst (PyPath.splitext p) +:+ snd (PyPath.splitext p) = p.
Proof.
  unfold PyPath.splitext. destruct (_ && _); cbn [fst snd].
  - apply substring_split.
  - induction p as [|c p IH]; [reflexivity|]. rewrite append_cons. now f_equal.
Qed.

Lemma splitext_ext_shape (p : string) :
  snd (PyPath.splitext p) = "" \/ exists rest, snd (PyPath.splitext p) = String "."%char rest.
Proof.
  unfold PyPath.splitext.
  destruct ((PyPath.rfind "/" p <? PyPath.rfind "." p)%Z && _) eqn:Hcond; [|now left].
  right. cbn [snd]. apply andb_true_iff in Hcond as [Hlt _]. apply Z.ltb_lt in Hlt.
  unfold PyPath.rfind in *.
  destruct (rfind_from_spec "/" p 0 (-1)) as [Hs | [Hs _]];
    destruct (rfind_from_spec "." p 0 (-1)) as [Hd | [_ Hd]]; try lia;
    rewrite Z.sub_0_r in Hd; now apply substring_from.
Qed.

Lemma append_assoc (x y z : string) : (x +:+ y) +:+ z = x +:+ (y +:+ z).
Proof.
  induction x as [|c x IH]; [reflexivity|]. rewrite !append_cons. now f_equal.
Qed.

Lemma append_empty_l (x : string) : "" +:+ x = x.
Proof. reflexivity. Qed.

Lemma length_append (x y : string) :
  String.length (x +:+ y) = String.length x + String.length y.
Proof.
  induction x as [|c x IH]; [reflexivity|]. rewrite append_cons. simpl. now rewrite IH.
Qed.

Lemma contains_append (c : ascii) (x y : string) :
  PyStr.contains c (x +:+ y) = PyStr.contains c x || PyStr.contains c y.
Proof.
  induction x as [|d x IH]; [reflexivity|]. rewrite append_cons. simpl.
  now rewrite IH, orb_assoc.
Qed.

Lemma rfind_from_append (c : ascii) (a b : string) (i last : Z) :
  PyPath.rfind_from c (a +:+ b) i last
  = PyPath.rfind_from c b (i + Z.of_nat (String.length a)) (PyPath.rfind_from c a i last).
Proof.
  revert i last. induction a as [|d a IH]; intros i last.
  - rewrite append_empty_l. simpl. now rewrite Z.add_0_r.
  - rewrite append_cons. cbn [PyPath.rfind_from String.length]. rewrite IH.
    f_equal. lia.
Qed.

Lemma rfind_from_absent (c : ascii) (s : string) (i last : Z) :
  PyStr.contains c s = false -> PyPath.rfind_from c s i last = last.
Proof.
  revert i last. induction s as [|d s IH]; intros i last; simpl; [reflexivity|].
  intros H. apply orb_false_iff in H as [Hcd Hs].
  rewrite Ascii.eqb_sym, Hcd. now apply IH.
Qed.

Lemma rfind_from_bound (c : ascii) (s : string) (i last : Z) :
  (last < i)%Z -> (PyPath.rfind_from c s i last < i + Z.of_nat (String.length s))%Z.
Proof.
  revert i last. induction s as [|d s IH]; intros i last Hlt.
  - simpl. lia.
  - cbn [PyPath.rfind_from String.length].
    specialize (IH (i + 1)%Z (if Ascii.eqb d c then i else last)).
    destruct (Ascii.eqb d c); lia.
Qed.

(** The last occurrence, when the character is there. *)
Lemma rfind_last (c : ascii) (stem tail : string) :
  PyStr.contains c tail = false ->
  PyPath.rfind c (stem +:+ String c tail) = Z.of_nat (String.length stem).
Proof.
  intros Htail. unfold PyPath.rfind. rewrite rfind_from_append.
  cbn [PyPath.rfind_from]. rewrite Ascii.eqb_refl, Z.add_0_l.
  now apply rfind_from_absent.
Qed.

(** A tail without the character does not move the last occurrence. *)
Lemma rfind_append_absent (c : ascii) (s tail : string) :
  PyStr.contains c tail = false -> PyPath.rfind c (s +:+ tail) = PyPath.rfind c s.
Proof.
  intros Htail. unfold PyPath.rfind. rewrite rfind_from_append.
  now apply rfind_from_absent.
Qed.

Lemma non_dot_between_found (a r : string) (x : ascii) (i lo hi : Z) :
  x <> "."%char ->
  (lo <= i + Z.of_nat (String.length a) < hi)%Z ->
  PyPath.non_dot_between (a +:+ String x r) i lo hi = true.
Proof.
  intros Hx. revert i. induction a as [|d a IH]; intros i Hi.
  - rewrite append_empty_l. cbn [PyPath.non_dot_between String.length] in *.
    apply orb_true_iff. left. rewrite !andb_true_iff, negb_true_iff.
    repeat split; [apply Z.leb_le; lia | apply Z.ltb_lt; lia |].
    now apply Ascii.eqb_neq.
  - rewrite append_cons. cbn [PyPath.non_dot_between]. apply orb_true_iff. right.
    apply IH. cbn [String.length] in Hi. lia.
Qed.

Lemma non_dot_between_beyond (s : string) (i lo hi : Z) :
  (hi <= i)%Z -> PyPath.non_dot_between s i lo hi = false.
Proof.
  revert i. induction s as [|d s IH]; intros i Hi; simpl; [reflexivity|].
  rewrite IH by lia. replace (i <? hi)%Z with false by (symmetry; apply Z.ltb_ge; lia).
  now rewrite andb_false_r.
Qed.

Lemma non_dot_between_before (a s : string) (i lo hi : Z) :
  (i + Z.of_nat (String.length a) <= lo)%Z ->
  PyPath.non_dot_between (a +:+ s) i lo hi
  = PyPath.non_dot_between s (i + Z.of_nat (String.length a)) lo hi.
Proof.
  revert i. induction a as [|d a IH]; intros i Hi.
  - rewrite append_empty_l. simpl. now rewrite Z.add_0_r.
  - rewrite append_cons. cbn [PyPath.non_dot_between String.length] in *.
    replace (lo <=? i)%Z with false by (symmetry; apply Z.leb_gt; lia).
    cbn [andb orb]. rewrite IH by lia. f_equal. lia.
Qed.

Lemma non_dot_between_dots (ds s : string) (i lo hi : Z) :
  all_dots ds = true ->
  PyPath.non_dot_between (ds +:+ s) i lo hi
  = PyPath.non_dot_between s (i + Z.of_nat (String.length ds)) lo hi.
Proof.
  revert i. induction ds as [|d ds IH]; intros i Hds.
  - rewrite append_empty_l. simpl. now rewrite Z.add_0_r.
  - rewrite append_cons. cbn [PyPath.non_dot_between String.length all_dots] in *.
    apply andb_true_iff in Hds as [Hd Hds]. rewrite Hd, andb_false_r. cbn [orb].
    rewrite IH by exact Hds. f_equal. lia.
Qed.

Lemma substring_prefix (x y : string) : String.substring 0 (String.length x) (x +:+ y) = x.
Proof.
  induction x as [|c x IH].
  - rewrite append_empty_l. now destruct y.
  - rewrite append_cons. simpl. now rewrite IH.
Qed.

Lemma substring_suffix (x y : string) :
  String.substring (String.length x) (String.length (x +:+ y) - String.length x) (x +:+ y) = y.
Proof.
  induction x as [|c x IH].
  - rewrite append_empty_l. cbn [String.length]. rewrite Nat.sub_0_r. apply substring_whole.
  - rewrite append_cons. exact IH.
Qed.

(** A name that ends in a dot and a tail free of dots and slashes, the dot
    coming after a character of the base name that is not a dot, splits
    there. *)
Lemma splitext_extension (a b tail : string) (x : ascii) :
  x <> "."%char ->
  PyStr.contains "/" (String x b) = false ->
  PyStr.contains "." tail = false ->
  PyStr.contains "/" tail = false ->
  PyPath.splitext ((a +:+ String x b) +:+ String "." tail)
  = (a +:+ String x b, String "."%char tail).
Proof.
  intros Hx Hslash Hdot Hslash'. unfold PyPath.splitext.
  rewrite (rfind_last "." (a +:+ String x b) tail Hdot).
  rewrite (rfind_append_absent "/" (a +:+ String x b) (String "." tail))
    by (simpl; exact Hslash').
  rewrite (rfind_append_absent "/" a (String x b) Hslash).
  pose proof (rfind_from_bound "/" a 0 (-1) ltac:(lia)) as Hsep.
  fold (PyPath.rfind "/" a) in Hsep.
  pose proof (length_append a (String x b)) as Hlen. cbn [String.length] in Hlen.
  replace (PyPath.rfind "/" a <? Z.of_nat (String.length (a +:+ String x b)))%Z with true
    by (symmetry; apply Z.ltb_lt; lia).
  rewrite (append_assoc a (String x b)), append_cons.
  rewrite non_dot_between_found by (try exact Hx; lia).
  cbn [andb]. rewrite Nat2Z.id.
  now rewrite <- append_cons, <- append_assoc, substring_prefix, substring_suffix.
Qed.

Lemma all_dots_last (ds : string) :
  all_dots ds = true -> ds = "" \/ exists ds', ds = ds' +:+ "." /\ all_dots ds' = true.
Proof.
  induction ds as [|d ds IH]; [now left|]. cbn [all_dots].
  intros H. apply andb_true_iff in H as [Hd Hds]. apply Ascii.eqb_eq in Hd as ->. right.
  destruct (IH Hds) as [-> | (ds' & -> & Hds')].
  - now exists "".
  - exists (String "." ds'). split; [reflexivity|]. cbn [all_dots]. now rewrite Hds'.
Qed.

(** A name whose base name is dots followed by text without a dot has no
    extension: no dot at all, or only leading ones. *)
Lemma splitext_no_extension (pre dots rest : string) :
  pre = "" \/ (exists d, pre = d +:+ "/") ->
  all_dots dots = true ->
  PyStr.contains "." rest = false ->
  PyStr.contains "/" (dots +:+ rest) = false ->
  snd (PyPath.splitext (pre +:+ dots +:+ rest)) = "".
Proof.
  intros Hpre Hdots Hdot Hslash.
  assert (PyPath.rfind "/" (pre +:+ dots +:+ rest) = Z.of_nat (String.length pre) - 1)%Z as Hsep.
  { rewrite (rfind_append_absent "/" pre (dots +:+ rest) Hslash).
    destruct Hpre as [-> | [d ->]]; [reflexivity|].
    rewrite (rfind_last "/" d "") by reflexivity. rewrite length_append. simpl. lia. }
  unfold PyPath.splitext. rewrite Hsep.
  destruct (all_dots_last dots Hdots) as [-> | (ds & -> & Hds)].
  - rewrite append_empty_l, (rfind_append_absent "." pre rest Hdot).
    pose proof (rfind_from_bound "." pre 0 (-1) ltac:(lia)) as Hb.
    fold (PyPath.rfind "." pre) in Hb.
    replace (_ <? _)%Z with false by (symmetry; apply Z.ltb_ge; lia). reflexivity.
  - rewrite (append_assoc ds "." rest), <- (append_assoc pre ds).
    change ("." +:+ rest) with (String "."%char rest).
    rewrite (rfind_last "." (pre +:+ ds) rest Hdot).
    rewrite (append_assoc pre ds), non_dot_between_before by lia.
    rewrite non_dot_between_dots by exact Hds.
    rewrite non_dot_between_beyond by (rewrite length_append; lia).
    now rewrite andb_false_r.
Qed.

(** X9: the suffix given to the temporary file (line 41).  It always starts
    with a dot.  It is [.wav] when the upload has no file name or an empty
    one, and when the base name of the file has no extension: no dot, or
    only leading dots.  When the name ends in a dot and a tail free of dots
    and slashes, and that dot follows a character of the base name that is
    not a dot, the suffix is that dot with that tail. *)
Theorem temp_suffix_shape (upload : UploadFile) :
  (exists rest, temp_suffix upload = String "."%char rest)
  /\ (filename upload = None \/ filename upload = Some "" -> temp_suffix upload = ".wav")
  /\ (forall a b tail x,
        filename upload = Some ((a +:+ String x b) +:+ String "." tail) ->
        x <> "."%char ->
        PyStr.contains "/" (String x b) = false ->
        PyStr.contains "." tail = false ->
        PyStr.contains "/" tail = false ->
        temp_suffix upload = String "." tail)
  /\ (forall pre dots rest,
        filename upload = Some (pre +:+ dots +:+ rest) ->
        pre = "" \/ (exists d, pre = d +:+ "/") ->
        all_dots dots = true ->
        PyStr.contains "." rest = false ->
        PyStr.contains "/" (dots +:+ rest) = false ->
        temp_suffix upload = ".wav").
Proof.
  unfold temp_suffix. split; [|split; [|split]].
  - unfold str_or.
    destruct (splitext_ext_shape (opt_str_or (filename upload) "audio.wav")) as [-> | [rest ->]];
      cbn [PyStr.truthy]; eauto.
  - intros [-> | ->]; reflexivity.
  - intros a b tail x Hname Hx Hslash Hdot Hslash'. rewrite Hname. cbn [opt_str_or].
    assert (str_or ((a +:+ String x b) +:+ String "." tail) "audio.wav"
            = (a +:+ String x b) +:+ String "." tail) as ->.
    { rewrite append_assoc. destruct a; reflexivity. }
    now rewrite splitext_extension.
  - intros pre dots rest Hname Hpre Hdots Hdot Hslash. rewrite Hname. cbn [opt_str_or].
    destruct (pre +:+ dots +:+ rest) as [|c name] eqn:Hfull; [reflexivity|].
    cbn [str_or PyStr.truthy]. rewrite <- Hfull.
    now rewrite splitext_no_extension.
Qed.

Example temp_suffix_examples :
  temp_suffix (mkUpload None (Some "talk.final.MP3") []) = ".MP3"
  /\ temp_suffix (mkUpload None (Some "recordings/.hidden") []) = ".wav"
  /\ temp_suffix (mkUpload None (Some "v1.2/notes") []) = ".wav"
  /\ temp_suffix (mkUpload None (Some "take.") []) = ".".
Proof. repeat split. Qed.

(** The two rules of the theorem at work on such names. *)
Lemma temp_suffix_shape_witness :
  temp_suffix (mkUpload None (Some "v1.2/talk.final.MP3") []) = ".MP3"
  /\ temp_suffix (mkUpload None (Some "v1.2/..hidden") []) = ".wav".
Proof.
  pose proof (temp_suffix_shape (mkUpload None (Some "v1.2/talk.final.MP3") []))
    as (_ & _ & Hext & _).
  pose proof (temp_suffix_shape (mkUpload None (Some "v1.2/..hidden") []))
    as (_ & _ & _ & Hnone).
  split.
  - refine (Hext "v1.2/" "alk.final" "MP3" "t"%char _ _ _ _ _);
      [reflexivity | discriminate | reflexivity..].
  - refine (Hnone "v1.2/" ".." "hidden" _ _ _ _ _);
      [reflexivity | right; now exists "v1.2" | reflexivity..].
Defined.

(** ** The further properties on concrete requests *)



(** The disk fills up while the payload is written: the exception leaves the
    handler, the model is not asked, and the temporary file stays behind with
    the one byte that was written. *)
Example transcribe_write_fails_file_stays :
  _transcribe (upload_clip (Some "audio/wav")) world_disk_full
  = (Raise (External "OSError"),
     log (EvNamedTemporaryFile "/tmp/tmp0.wav")
       (set_files {["/tmp/tmp0.wav" := [Byte.x52]]} world_disk_full)).
Proof. reflexivity. Qed.

Lemma load_model_stores_witness :
  _device (snd (_load_model (world_configured (inr []) false))) = "cuda".
Proof.
  destruct (load_model_stores
              (world_configured (inr []) false)
              (snd (_load_model (world_configured (inr []) false))) eq_refl eq_refl)
    as (path & m & _ & _ & _ & _ & _ & Hdevice & _).
  exact Hdevice.
Defined.

(** [eval] raises on a machine without GPU: the load fails and the restored
    model is held all the same. *)
Lemma load_model_failure_state_witness :
  _model (snd (_load_model world_eval_fails)) = Some "/models/parakeet.nemo".
Proof.
  destruct (load_model_failure_state
              world_eval_fails (snd (_load_model world_eval_fails)) (External "AttributeError")
              eq_refl eq_refl)
    as [[[msg Hmsg] _] | (_ & _ & _ & _ & _ & path & Henv & Hcase)].
  - discriminate Hmsg.
  - vm_compute in Henv. injection Henv as <-. exact (proj2 Hcase).
Defined.

Lemma load_model_to_failure_keeps_model_witness :
  fst (health_check (snd (_load_model world_gpu)))
  = Return (mkJSON [("status", "ready"); ("device", "cuda")]).
Proof.
  refine (proj1 (proj2 (proj2
            (load_model_to_failure_keeps_model
               world_gpu "/models/parakeet.nemo" "torch.OutOfMemoryError"
               "/models/parakeet.nemo" _ _ _ _ _ _ _ _)))).
  - reflexivity.
  - reflexivity.
  - discriminate.
  - now eexists.
  - reflexivity.
  - reflexivity.
  - reflexivity.
  - reflexivity.
Defined.

Lemma lazy_load_failure_aborts_witness :
  http_status (fst (transcribe upload_empty (world_unconfigured (inr []) false))) = 500%Z.
Proof.
  refine (proj1 (proj2
            (lazy_load_failure_aborts
               upload_empty (world_unconfigured (inr []) false)
               (world_unconfigured (inr []) false)
               (RuntimeError "MODEL_PATH environment variable is not set.") _ _))).
  - reflexivity.
  - reflexivity.
Defined.
